(** * github_readme.py: project structure analysis and README synthesis

    A shallow embedding of [src/github_readme.py].

    - Python [str] values are modelled by [string]; a character is a code
      point below 256 (Latin-1).
    - The file system is an explicit argument: what exists at a path
      string, as a finite directory tree with the outcome of a stat on
      each entry that is not a directory, and the error of the stat of a
      path at which nothing is found.
    - [pathlib] and [os.path] are modelled for POSIX, as in CPython 3.12
      and 3.13.
    - What can raise ([Path.exists], [PurePath.relative_to], a missing
      dictionary key) returns [option]; [None] stands for the exception.
    - A [dict] whose text is taken ([key_files]) is an association list in
      insertion order; the [set] of languages is a [gset], and the list
      made from it has the order of [elements], which, like the order
      of Python's [list(set)], no property below depends on. *)

From Stdlib Require Import ZArith Ascii String List Lia.
From Stdlib Require Import Sorting.Sorted Sorting.Permutation DecimalString.
From stdpp Require Import base option list gmap sets strings.

Local Open Scope string_scope.
Local Open Scope Z_scope.
Local Arguments String.append !_ _ /.
Set Warnings "-register-all".

(** ** Python string primitives *)

Module Py.

(** [needle in s] *)
Fixpoint str_in (needle s : string) : bool :=
  String.prefix needle s ||
  match s with
  | EmptyString => false
  | String _ s' => str_in needle s'
  end.

(** [s[n:]] for [0 <= n] *)
Fixpoint drop (n : nat) (s : string) : string :=
  match n, s with
  | O, _ => s
  | S n', EmptyString => EmptyString
  | S n', String _ s' => drop n' s'
  end.

(** [s.rfind(c)] for a one-character [c]: the highest index, or -1 *)
Fixpoint rfind (c : ascii) (s : string) : Z :=
  match s with
  | EmptyString => -1
  | String a s' =>
      let r := rfind c s' in
      if 0 <=? r then r + 1 else if Ascii.eqb a c then 0 else -1
  end.

(** [s.endswith(c)] for a one-character [c] *)
Fixpoint endswith (c : ascii) (s : string) : bool :=
  match s with
  | EmptyString => false
  | String a EmptyString => Ascii.eqb a c
  | String _ s' => endswith c s'
  end.

(** [s.split(sep)] for a one-character [sep]; never the empty list *)
Fixpoint split (sep : ascii) (s : string) : list string :=
  match s with
  | EmptyString => [EmptyString]
  | String a s' =>
      if Ascii.eqb a sep then EmptyString :: split sep s'
      else match split sep s' with
           | [] => [String a EmptyString]
           | w :: ws => String a w :: ws
           end
  end.

(** [sep.join(l)] *)
Definition join (sep : string) (l : list string) : string := String.concat sep l.

Definition in_range (lo hi : N) (a : ascii) : bool :=
  let n := N_of_ascii a in ((lo <=? n) && (n <=? hi))%N.

(** [str.lower] on code points below 256: A-Z and the Latin-1 capitals
    U+00C0..U+00DE except the multiplication sign U+00D7. *)
Definition lower_char (a : ascii) : ascii :=
  if in_range 65 90 a || (in_range 192 222 a && negb (N_of_ascii a =? 215)%N)
  then ascii_of_N (N_of_ascii a + 32) else a.

Fixpoint lower (s : string) : string :=
  match s with
  | EmptyString => EmptyString
  | String a s' => String (lower_char a) (lower s')
  end.

(** [str.upper] on ASCII; it is applied to language tags only, which are
    ASCII letters. *)
Definition upper_char (a : ascii) : ascii :=
  if in_range 97 122 a then ascii_of_N (N_of_ascii a - 32) else a.

Fixpoint upper (s : string) : string :=
  match s with
  | EmptyString => EmptyString
  | String a s' => String (upper_char a) (upper s')
  end.

(** *** [repr] of a [str] and [str] of a [dict] of strings *)

Definition hex_digit (n : N) : ascii :=
  if (n <? 10)%N then ascii_of_N (48 + n) else ascii_of_N (87 + n).

(** code points below 256 that [repr] prints as they are *)
Definition printable (a : ascii) : bool :=
  in_range 32 126 a || (in_range 161 255 a && negb (N_of_ascii a =? 173)%N).

Definition repr_char (quote a : ascii) : string :=
  if Ascii.eqb a quote || Ascii.eqb a "\"%char then String "\"%char (String a EmptyString)
  else if Ascii.eqb a "009"%char then "\t"
  else if Ascii.eqb a "010"%char then "\n"
  else if Ascii.eqb a "013"%char then "\r"
  else if printable a then String a EmptyString
  else String "\"%char (String "x"%char
         (String (hex_digit (N_of_ascii a / 16)) (String (hex_digit (N_of_ascii a mod 16)) EmptyString))).

Fixpoint repr_body (quote : ascii) (s : string) : string :=
  match s with
  | EmptyString => EmptyString
  | String a s' => repr_char quote a ++ repr_body quote s'
  end.

Definition dquote : ascii := "034"%char.

Definition repr (s : string) : string :=
  let quote := if str_in "'" s && negb (str_in (String dquote EmptyString) s)
               then dquote else "'"%char in
  String quote (repr_body quote s ++ String quote EmptyString).

(** [str(d)] for an insertion-ordered [dict] from [str] to [str] *)
Definition str_dict (d : list (string * string)) : string :=
  "{" ++ join ", " (map (fun kv => repr (fst kv) ++ ": " ++ repr (snd kv)) d) ++ "}".

End Py.

(** ** [os.path] and [pathlib] on POSIX *)

(** [os.path.basename] *)
Definition os_path_basename (p : string) : string :=
  Py.drop (Z.to_nat (Py.rfind "/" p + 1)) p.

(** [os.path.join] of two components *)
Definition os_path_join (a b : string) : string :=
  if String.prefix "/" b then b
  else if String.eqb a "" || Py.endswith "/" a then a ++ b
  else a ++ "/" ++ b.

(** A [PurePosixPath]: its root ([""], ["/"] or ["//"]) and the segments
    after it. *)
Record PurePath := { p_root : string; p_tail : list string }.

(** [posixpath.splitroot], without the drive, which is empty on POSIX:
    [p[:1] != sep], then [p[1:2] != sep or p[2:3] == sep] *)
Definition splitroot (p : string) : string * string :=
  if negb (String.prefix "/" p) then ("", p)
  else if negb (String.prefix "/" (Py.drop 1 p)) || String.prefix "/" (Py.drop 2 p)
       then ("/", Py.drop 1 p)
       else ("//", Py.drop 2 p).

(** [Path(s)] *)
Definition Path (s : string) : PurePath :=
  let '(r, rel) := splitroot s in
  {| p_root := r; p_tail := filter (fun x => x <> "" /\ x <> ".") (Py.split "/" rel) |}.

(** [str(p)] *)
Definition Path_str (p : PurePath) : string :=
  if String.eqb (p_root p) "" then
    let s := Py.join "/" (p_tail p) in if String.eqb s "" then "." else s
  else p_root p ++ Py.join "/" (p_tail p).

(** [p.parts] *)
Definition parts (p : PurePath) : list string :=
  if String.eqb (p_root p) "" then p_tail p else p_root p :: p_tail p.

(** [p.name] *)
Definition name (p : PurePath) : string := List.last (p_tail p) "".

(** [p.suffix]: with [i = name.rfind('.')], [name[i:]] when
    [0 < i < len(name) - 1], else the empty string *)
Definition suffix_of_name (n : string) : string :=
  let i := Py.rfind "." n in
  if (0 <? i) && (i <? Z.of_nat (String.length n) - 1) then Py.drop (Z.to_nat i) n else "".

Definition suffix (p : PurePath) : string := suffix_of_name (name p).

Fixpoint strip_prefix (pre l : list string) : option (list string) :=
  match pre, l with
  | [], _ => Some l
  | x :: pre', y :: l' => if String.eqb x y then strip_prefix pre' l' else None
  | _ :: _, [] => None
  end.

(** [p.relative_to(other)]; [None] stands for the [ValueError] *)
Definition relative_to (p other : PurePath) : option PurePath :=
  if String.eqb (p_root p) (p_root other) then
    tl ← strip_prefix (p_tail other) (p_tail p);
    Some {| p_root := ""; p_tail := tl |}
  else None.

(** ** [fnmatch.fnmatch] on POSIX, for patterns without bracket
    expressions (no pattern of the program has one) *)
Fixpoint fnmatch_pat (pat : string) : string -> bool :=
  match pat with
  | EmptyString => fun n => String.eqb n ""
  | String "*" pat' =>
      fix star (n : string) : bool :=
        fnmatch_pat pat' n ||
        match n with
        | EmptyString => false
        | String _ n' => star n'
        end
  | String "?" pat' =>
      fun n => match n with
               | EmptyString => false
               | String _ n' => fnmatch_pat pat' n'
               end
  | String c pat' =>
      fun n => match n with
               | EmptyString => false
               | String d n' => Ascii.eqb c d && fnmatch_pat pat' n'
               end
  end.

Definition fnmatch (n pat : string) : bool := fnmatch_pat pat n.

(** ** The file system seen by the program *)

Inductive OSError := PermissionError | FileNotFoundError | OtherOSError (errno : Z).

Record stat_result := { st_size : Z; st_is_file : bool }.

(** The outcome of [os.stat] on an entry. *)
Definition stat_outcome : Type := stat_result + OSError.

(** A directory tree.  [File] is any entry that [os.scandir] does not
    report as a directory (regular file, broken link, fifo, ...); [Dir]
    with [listable = false] is a directory that [os.walk] lists in its
    parent but does not enter (unreadable, or a link to a directory). *)
Inductive node :=
| File (n : string) (st : stat_outcome)
| Dir (n : string) (listable : bool) (children : list node).

Definition node_name (x : node) : string :=
  match x with File n _ => n | Dir n _ _ => n end.

Definition is_dir (x : node) : bool :=
  match x with File _ _ => false | Dir _ _ _ => true end.

(** How a stat of a path fails: with an [OSError], or with the
    [ValueError] of a path that cannot be passed to the system (an
    embedded null character). *)
Inductive stat_failure := StatOSError (e : OSError) | StatValueError.

(** What the program finds at a path string: the tree there when a stat
    of the path succeeds ([lookup], written as an application [fs p]),
    and how the stat fails when it does not. *)
Record filesystem := {
  lookup :> string -> option node;
  failure : string -> stat_failure
}.

(** the errors that [pathlib] takes for the absence of the path, with
    the values of [errno] on Linux *)
Definition ENOENT : Z := 2.
Definition EBADF : Z := 9.
Definition ENOTDIR : Z := 20.
Definition ELOOP : Z := 40.

Definition ignored_error (e : OSError) : bool :=
  match e with
  | FileNotFoundError => true
  | PermissionError => false
  | OtherOSError errno =>
      (errno =? ENOENT) || (errno =? ENOTDIR) || (errno =? EBADF) || (errno =? ELOOP)
  end.

(** the failures of the stat that [p.exists()] answers with [False] *)
Definition taken_for_absence (f : stat_failure) : bool :=
  match f with
  | StatValueError => true
  | StatOSError e => ignored_error e
  end.

(** [p.exists()]: a stat of the path; an ignored [OSError] and the
    [ValueError] give [False], any other [OSError] is raised again
    ([None]) *)
Definition Path_exists (fs : filesystem) (p : PurePath) : option bool :=
  match fs (Path_str p) with
  | Some _ => Some true
  | None => if taken_for_absence (failure fs (Path_str p)) then Some false else None
  end.

(** the file system that holds one tree, at one path, and nothing else *)
Definition only_at (root : string) (x : node) : filesystem :=
  {| lookup := fun p => if String.eqb p root then Some x else None;
     failure := fun _ => StatOSError FileNotFoundError |}.

(** ** The program *)

Definition IGNORE_PATTERNS : list string :=
  [ "*.pyc"; "__pycache__"; ".git"; ".gitignore"; "node_modules";
    ".env"; "*.log"; ".DS_Store"; "*.tmp"; "*.temp"; ".vscode";
    ".idea"; "*.sqlite"; "*.db"; "dist"; "build"; ".pytest_cache" ].

Definition should_ignore (path : string) : bool :=
  let n := os_path_basename path in
  existsb (fun pattern => fnmatch n pattern) IGNORE_PATTERNS.

Inductive pyval := VStr (s : string) | VInt (z : Z) | VBool (b : bool).

Abbreviation FileEntry := (gmap string pyval).

Definition get_file_info (file_path : PurePath) (st : stat_outcome) : FileEntry :=
  match st with
  | inl stat =>
      {[ "name" := VStr (name file_path);
         "path" := VStr (Path_str file_path);
         "size" := VInt (st_size stat);
         "is_file" := VBool (st_is_file stat);
         "extension" := VStr (suffix file_path) ]}
  | inr _ =>
      {[ "name" := VStr (name file_path);
         "path" := VStr (Path_str file_path);
         "error" := VStr "Access denied" ]}
  end.

(** The [structure] dictionary of [analyze_project_structure]; [L] is the
    type held under ["languages"]: a set during the walk, a list in the
    value returned. *)
Record structure (L : Type) := {
  s_root : string;
  s_files : list FileEntry;
  s_directories : list string;
  s_key_files : list (string * string);
  s_languages : L;
  s_framework_indicators : list string
}.
Arguments s_root {L}.
Arguments s_files {L}.
Arguments s_directories {L}.
Arguments s_key_files {L}.
Arguments s_languages {L}.
Arguments s_framework_indicators {L}.

(** [d[k] = v] on an insertion-ordered [dict] *)
Fixpoint dict_set (k v : string) (d : list (string * string)) : list (string * string) :=
  match d with
  | [] => [(k, v)]
  | (k', v') :: d' => if String.eqb k k' then (k, v) :: d' else (k', v') :: dict_set k v d'
  end.

(** [d.get(k)] *)
Fixpoint dict_get (k : string) (d : list (string * string)) : option string :=
  match d with
  | [] => None
  | (k', v') :: d' => if String.eqb k k' then Some v' else dict_get k d'
  end.

Definition key_files_patterns : list (string * list string) :=
  [ ("readme", ["README.md"; "README.txt"; "README.rst"; "readme.md"]);
    ("license", ["LICENSE"; "LICENSE.txt"; "LICENSE.md"; "license"]);
    ("config", ["package.json"; "requirements.txt"; "setup.py"; "Cargo.toml";
                "composer.json"; "pom.xml"; "build.gradle"; "Gemfile"]);
    ("docker", ["Dockerfile"; "docker-compose.yml"; "docker-compose.yaml"]);
    ("ci", [".github/workflows"; ".gitlab-ci.yml"; ".travis.yml"]);
    ("env", [".env.example"; ".env.sample"]) ].

Definition language_extensions : list string :=
  [".py"; ".js"; ".ts"; ".java"; ".cpp"; ".c"; ".go"; ".rs"; ".rb"; ".php"].

Definition str_mem (x : string) (l : list string) : bool :=
  existsb (String.eqb x) l.

(** The two inner loops over [key_files_patterns.items()] (lines 90-93). *)
Definition check_key_files (file : string) (file_path : PurePath)
    (kf : list (string * string)) : list (string * string) :=
  fold_left (fun kf cp =>
    let '(category, patterns) := cp in
    fold_left (fun kf pattern =>
      if String.eqb (Py.lower file) (Py.lower pattern) || String.eqb file pattern
      then dict_set category (Path_str file_path) kf else kf) patterns kf)
    key_files_patterns kf.

(** The body of [for file in files] (lines 77-93); [st] is what a stat
    of the entry gives. *)
Definition visit_file (root : string) (s : structure (gset string))
    (entry : string * stat_outcome) : structure (gset string) :=
  let '(file, st) := entry in
  let file_path := Path (os_path_join root file) in
  if should_ignore (Path_str file_path) then s
  else
    let file_info := get_file_info file_path st in
    let ext := Py.lower (suffix file_path) in
    {| s_root := s_root s;
       s_files := s_files s ++ [file_info];
       s_directories := s_directories s;
       s_key_files := check_key_files file file_path (s_key_files s);
       s_languages := if str_mem ext language_extensions
                      then {[ Py.drop 1 ext ]} ∪ s_languages s else s_languages s;
       s_framework_indicators := s_framework_indicators s |}.

(** The body of [for root, dirs, files in os.walk(project_root)] (lines
    69-93).  It returns the [dirs] list as the body leaves it, which is
    what [os.walk] descends into, and the updated [structure]. *)
Definition walk_body (project_root : PurePath) (max_depth : Z)
    (root : string) (dirs : list string) (files : list (string * stat_outcome))
    (s : structure (gset string)) : option (list string * structure (gset string)) :=
  rel ← relative_to (Path root) project_root;
  let current_depth := Z.of_nat (length (parts rel)) in
  if max_depth <? current_depth then Some (dirs, s)
  else
    let dirs' := List.filter (fun d => negb (should_ignore (os_path_join root d))) dirs in
    Some (dirs', fold_left (visit_file root) files s).

Definition dir_names (children : list node) : list string :=
  map node_name (List.filter is_dir children).

Fixpoint nondir_entries (children : list node) : list (string * stat_outcome) :=
  match children with
  | [] => []
  | File n st :: rest => (n, st) :: nondir_entries rest
  | Dir _ _ _ :: rest => nondir_entries rest
  end.

(** [os.walk(top)], top-down and without following links, driving a loop
    body [body top dirs nondirs]: a directory that cannot be listed
    yields nothing; after the body has run, the walk enters, in listing
    order, the subdirectories whose names the body left in [dirs]. *)
Fixpoint os_walk {S : Type}
    (body : string -> list string -> list (string * stat_outcome) -> S -> option (list string * S))
    (top : string) (x : node) (s : S) {struct x} : option S :=
  match x with
  | File _ _ => Some s
  | Dir _ false _ => Some s
  | Dir _ true children =>
      match body top (dir_names children) (nondir_entries children) s with
      | None => None
      | Some (dirs, s1) =>
          (fix descend (cs : list node) (s : S) {struct cs} : option S :=
             match cs with
             | [] => Some s
             | c :: cs' =>
                 if is_dir c && str_mem (node_name c) dirs then
                   match os_walk body (os_path_join top (node_name c)) c s with
                   | None => None
                   | Some s' => descend cs' s'
                   end
                 else descend cs' s
             end) children s1
      end
  end.

Inductive analysis :=
| ErrorResult (error : string)
| ProjectStructure (s : structure (list string)).


(** lines 40-96; the test of line 44 is outside any [try], so what
    [exists()] raises leaves the function; [os.walk] of a path that is
    not a directory that can be listed yields nothing *)
Definition analyze_project_structure (fs : filesystem) (project_path : string)
    (max_depth : Z) : option analysis :=
  let project_root := Path project_path in
  found ← Path_exists fs project_root;
  if negb found then
    Some (ErrorResult ("Project path '" ++ project_path ++ "' does not exist"))
  else
    let s0 := {| s_root := Path_str project_root; s_files := [];
                 s_directories := []; s_key_files := [];
                 s_languages := (∅ : gset string); s_framework_indicators := [] |} in
    s ← match fs (Path_str project_root) with
        | Some x => os_walk (walk_body project_root max_depth) (Path_str project_root) x s0
        | None => Some s0
        end;
    Some (ProjectStructure
      {| s_root := s_root s; s_files := s_files s;
         s_directories := s_directories s; s_key_files := s_key_files s;
         s_languages := elements (s_languages s);
         s_framework_indicators := s_framework_indicators s |}).

Definition scan_project (fs : filesystem) (project_path : string) : option analysis :=
  analyze_project_structure fs project_path 3.

(** *** A sample tree *)

Definition ok_file (n : string) (size : Z) : node :=
  File n (inl {| st_size := size; st_is_file := true |}).

Definition sample_tree : node :=
  Dir "proj" true
    [ ok_file "README.md" 10;
      ok_file "package.json" 20;
      Dir ".git" true [ ok_file "config" 5 ];
      Dir "src" true [ ok_file "index.js" 30; ok_file "a.pyc" 1;
                       Dir "deep" true [ ok_file "x.PY" 2 ] ];
      File "broken.rb" (inr FileNotFoundError) ].

Definition sample_fs : filesystem := only_at "proj" sample_tree.

Definition entry_str (k : string) (e : FileEntry) : string :=
  match e !! k with Some (VStr s) => s | _ => "" end.

Definition files_of (a : option analysis) : list FileEntry :=
  match a with Some (ProjectStructure s) => s_files s | _ => [] end.

Definition languages_of (a : option analysis) : list string :=
  match a with Some (ProjectStructure s) => s_languages s | _ => [] end.

Definition key_files_of (a : option analysis) : list (string * string) :=
  match a with Some (ProjectStructure s) => s_key_files s | _ => [] end.

(** ** [generate_readme] *)

(** the line feed, written [\n] in the source *)
Definition nl : string := String "010"%char EmptyString.

(** [sorted(l, key=key)]: the stable sort by code-point order of the keys *)
Section Sorted.
Context {A : Type} (key : A -> string).

Fixpoint insert_sorted (x : A) (l : list A) : list A :=
  match l with
  | [] => [x]
  | y :: l' => if String.leb (key x) (key y) then x :: l else y :: insert_sorted x l'
  end.

Fixpoint sorted (l : list A) : list A :=
  match l with
  | [] => []
  | x :: l' => insert_sorted x (sorted l')
  end.
End Sorted.

(** truthiness of an optional [str] argument: [None] and [""] are false *)
Definition truthy (o : option string) : bool :=
  match o with
  | None => false
  | Some s => negb (String.eqb s "")
  end.

(** the four texts that can follow "## Installation" *)
Definition npm_block : string :=
  "```bash" ++ nl ++ "npm install" ++ nl ++ "```" ++ nl ++ nl.

Definition pip_block : string :=
  "```bash" ++ nl ++ "pip install -r requirements.txt" ++ nl ++ "```" ++ nl ++ nl.

Definition cargo_block : string :=
  "```bash" ++ nl ++ "cargo build" ++ nl ++ "```" ++ nl ++ nl.

Definition placeholder_block : string :=
  "Add installation instructions here." ++ nl ++ nl.

(** the text appended under "## Installation" (lines 154-161); the tests
    are on [str(analysis.get("key_files", {}))] *)
Definition installation_block (key_files : list (string * string)) : string :=
  if Py.str_in "package.json" (Py.str_dict key_files) then npm_block
  else if Py.str_in "requirements.txt" (Py.str_dict key_files) then pip_block
  else if Py.str_in "Cargo.toml" (Py.str_dict key_files) then cargo_block
  else placeholder_block.

(** [file_info["path"]]; [None] stands for the [KeyError] *)
Definition entry_path (file_info : FileEntry) : option string :=
  match file_info !! "path" with
  | Some (VStr p) => Some p
  | _ => None
  end.

(** [file_info.get("is_file", True)] as a condition *)
Definition entry_is_file (file_info : FileEntry) : bool :=
  match file_info !! "is_file" with
  | Some (VBool b) => b
  | Some (VStr s) => negb (String.eqb s "")
  | Some (VInt z) => negb (z =? 0)
  | None => true
  end.

(** the sort key [lambda x: x["path"]] *)
Definition path_key (file_info : FileEntry) : string :=
  default "" (entry_path file_info).

(** one turn of the loop of lines 171-174: the text it appends *)
Definition structure_line (root : string) (file_info : FileEntry) : option string :=
  if entry_is_file file_info then
    path ← entry_path file_info;
    rel_path ← relative_to (Path path) (Path root);
    Some (Path_str rel_path ++ nl)
  else Some "".

(** the text appended by lines 168-175; [sorted] reads the key of every
    entry, so an entry without [path] raises *)
Definition project_structure_section (a : structure (list string)) : option string :=
  if Z.of_nat (length (s_files a)) <=? 20 then
    _ ← mapM entry_path (s_files a);
    lines ← mapM (structure_line (s_root a)) (sorted path_key (s_files a));
    Some ("## Project Structure" ++ nl ++ nl ++ "```" ++ nl ++
          String.concat "" lines ++ "```" ++ nl ++ nl)
  else Some "".

(** the title line (lines 131-135) *)
Definition title (project_path : string) (project_name : option string) : string :=
  let project_name :=
    if truthy project_name then default "" project_name
    else name (Path project_path) in
  "# " ++ project_name ++ nl ++ nl.

Definition generate_readme (fs : filesystem) (project_path : string)
    (project_name description : option string) : option string :=
  analysis ← analyze_project_structure fs project_path 3;
  match analysis with
  | ErrorResult error => Some ("Error: " ++ error)
  | ProjectStructure a =>
      let readme_content := title project_path project_name in
      let readme_content :=
        if truthy description then readme_content ++ default "" description ++ nl ++ nl
        else readme_content ++ "A brief description of your project." ++ nl ++ nl in
      let readme_content :=
        if negb (Nat.eqb (length (s_languages a)) 0) then
          readme_content ++ "## Technologies Used" ++ nl ++ nl ++
          String.concat "" (map (fun lang => "- " ++ Py.upper lang ++ nl)
                                (sorted id (s_languages a))) ++ nl
        else readme_content in
      let readme_content := readme_content ++ "## Installation" ++ nl ++ nl in
      let readme_content := readme_content ++ installation_block (s_key_files a) in
      let readme_content := readme_content ++ "## Usage" ++ nl ++ nl in
      let readme_content :=
        readme_content ++ "Describe how to use your project here." ++ nl ++ nl in
      section ← project_structure_section a;
      let readme_content := readme_content ++ section in
      let readme_content := readme_content ++
        "## Contributing" ++ nl ++ nl ++
        "1. Fork the repository" ++ nl ++
        "2. Create your feature branch (`git checkout -b feature/AmazingFeature`)" ++ nl ++
        "3. Commit your changes (`git commit -m 'Add some AmazingFeature'`)" ++ nl ++
        "4. Push to the branch (`git push origin feature/AmazingFeature`)" ++ nl ++
        "5. Open a Pull Request" ++ nl ++ nl in
      let readme_content :=
        if bool_decide (is_Some (dict_get "license" (s_key_files a))) then
          readme_content ++ "## License" ++ nl ++ nl ++
          "This project is licensed under the terms found in the LICENSE file." ++ nl ++ nl
        else readme_content in
      Some readme_content
  end.

(** * Vocabulary of the properties *)

(** ** Strings *)

Fixpoint has_char (c : ascii) (s : string) : bool :=
  match s with
  | EmptyString => false
  | String a s' => Ascii.eqb a c || has_char c s'
  end.

(** ** Paths *)

(** a name that [pathlib] keeps as one segment of a path *)
Definition valid_name (n : string) : Prop :=
  n <> "" /\ n <> "." /\ has_char "/" n = false.

Global Instance valid_name_dec n : Decision (valid_name n).
Proof. unfold valid_name. apply _. Defined.

Definition path_snoc (p : PurePath) (d : string) : PurePath :=
  {| p_root := p_root p; p_tail := p_tail p ++ [d] |}.

Definition path_app (p : PurePath) (ds : list string) : PurePath :=
  {| p_root := p_root p; p_tail := p_tail p ++ ds |}.

Definition wf_path (p : PurePath) : Prop :=
  (p_root p = "" \/ p_root p = "/" \/ p_root p = "//") /\ Forall valid_name (p_tail p).

Abbreviation segment := (fun x : string => x <> "" /\ x <> ".").

(** a name is ignored when some pattern of the fixed list matches it *)
Definition ignored_name (n : string) : bool :=
  existsb (fun pattern => fnmatch n pattern) IGNORE_PATTERNS.

(** ** Trees *)

(** every name below the top of the tree is a valid segment *)
Fixpoint wf_node (x : node) : Prop :=
  match x with
  | File _ _ => True
  | Dir _ _ children =>
      (fix all (cs : list node) : Prop :=
         match cs with
         | [] => True
         | c :: cs' => (valid_name (node_name c) /\ wf_node c) /\ all cs'
         end) children
  end.

Fixpoint node_ind' (P : node -> Prop)
    (HF : forall n st, P (File n st))
    (HD : forall n l cs, Forall P cs -> P (Dir n l cs))
    (x : node) {struct x} : P x :=
  match x with
  | File n st => HF n st
  | Dir n l cs =>
      HD n l cs
        ((fix all (cs : list node) : Forall P cs :=
            match cs with
            | [] => @List.Forall_nil node P
            | c :: cs' => @List.Forall_cons node P c cs' (node_ind' P HF HD c) (all cs')
            end) cs)
  end.

(** [file_at x ds f st]: below the directory [x], the chain of
    subdirectories [ds], each of which can be listed, leads to a
    directory that holds the entry [f], whose stat gives [st] *)
Inductive file_at : node -> list string -> string -> stat_outcome -> Prop :=
| file_here n cs f st :
    In (File f st) cs -> file_at (Dir n true cs) [] f st
| file_below n cs c ds f st :
    In c cs -> is_dir c = true -> file_at c ds f st ->
    file_at (Dir n true cs) (node_name c :: ds) f st.

(** The files the walk visits, as a function of the tree: the chain of
    directories from the top, the name and the stat outcome, in the order
    of the walk. *)
Fixpoint visited (max_depth : Z) (ds : list string) (x : node) {struct x}
    : list (list string * string * stat_outcome) :=
  match x with
  | File _ _ => []
  | Dir _ false _ => []
  | Dir _ true children =>
      if max_depth <? Z.of_nat (length ds) then []
      else
        (map (fun e => (ds, fst e, snd e))
             (List.filter (fun e => negb (ignored_name (fst e))) (nondir_entries children))
         ++ (fix below (cs : list node) : list (list string * string * stat_outcome) :=
               match cs with
               | [] => []
               | c :: cs' =>
                   (if is_dir c && negb (ignored_name (node_name c))
                    then visited max_depth (ds ++ [node_name c]) c else [])
                   ++ below cs'
               end) children)%list
  end.

(** what [visit_file] does with a file that is not ignored *)
Definition add_file (project_root : PurePath) (s : structure (gset string))
    (v : list string * string * stat_outcome) : structure (gset string) :=
  let '(ds, file, st) := v in
  let file_path := path_app project_root (ds ++ [file]) in
  let ext := Py.lower (suffix file_path) in
  {| s_root := s_root s;
     s_files := s_files s ++ [get_file_info file_path st];
     s_directories := s_directories s;
     s_key_files := check_key_files file file_path (s_key_files s);
     s_languages := if str_mem ext language_extensions
                    then {[ Py.drop 1 ext ]} ∪ s_languages s else s_languages s;
     s_framework_indicators := s_framework_indicators s |}.

(** ** The walk visits the files listed by [visited] *)

Fixpoint descend {S : Type}
    (body : string -> list string -> list (string * stat_outcome) -> S -> option (list string * S))
    (top : string) (dirs : list string) (cs : list node) (s : S) : option S :=
  match cs with
  | [] => Some s
  | c :: cs' =>
      if is_dir c && str_mem (node_name c) dirs then
        match os_walk body (os_path_join top (node_name c)) c s with
        | None => None
        | Some s' => descend body top dirs cs' s'
        end
      else descend body top dirs cs' s
  end.

Fixpoint below (max_depth : Z) (ds : list string) (cs : list node)
    : list (list string * string * stat_outcome) :=
  match cs with
  | [] => []
  | c :: cs' =>
      ((if is_dir c && negb (ignored_name (node_name c))
        then visited max_depth (ds ++ [node_name c]) c else [])
       ++ below max_depth ds cs')%list
  end.

Definition here (ds : list string) (cs : list node) : list (list string * string * stat_outcome) :=
  map (fun e => (ds, fst e, snd e))
      (List.filter (fun e => negb (ignored_name (fst e))) (nondir_entries cs)).

(** ** The analysis in terms of the visited files *)

(** the [FileEntry] of a visited file *)
Definition entry_of (project_root : PurePath) (v : list string * string * stat_outcome)
    : FileEntry :=
  get_file_info (path_app project_root (v.1.1 ++ [v.1.2])) v.2.

(** the language tag a file name contributes, if any (lines 85-87) *)
Definition language_tag (file : string) : option string :=
  let ext := Py.lower (suffix_of_name file) in
  if str_mem ext language_extensions then Some (Py.drop 1 ext) else None.

(** the structure before the walk *)
Definition initial (project_root : PurePath) : structure (gset string) :=
  {| s_root := Path_str project_root; s_files := [];
     s_directories := []; s_key_files := [];
     s_languages := ∅; s_framework_indicators := [] |}.

(** line 95: the set of languages becomes a list *)
Definition finish (s : structure (gset string)) : structure (list string) :=
  {| s_root := s_root s; s_files := s_files s;
     s_directories := s_directories s; s_key_files := s_key_files s;
     s_languages := elements (s_languages s);
     s_framework_indicators := s_framework_indicators s |}.

(** the position of a visited file: reached through directories that
    are not ignored, itself not ignored, in a directory within the bound *)
Record visited_ok (max_depth : Z) (x : node) (ds : list string)
    (v : list string * string * stat_outcome) (rel : list string) : Prop := {
  vo_chain : v.1.1 = (ds ++ rel)%list;
  vo_at : file_at x rel v.1.2 v.2;
  vo_dirs : Forall (fun d => ignored_name d = false) rel;
  vo_file : ignored_name v.1.2 = false;
  vo_depth : Z.of_nat (length v.1.1) <= max_depth;
  vo_valid_dirs : Forall valid_name rel;
  vo_valid_file : valid_name v.1.2
}.

(** the segments of an entry's path relative to the analysed root;
    [None] if the entry has no path or the path is not below the root *)
Definition entry_rel (project_path : string) (e : FileEntry) : option (list string) :=
  p ← entry_path e;
  rel ← relative_to (Path p) (Path project_path);
  Some (parts rel).

(** the depth of an entry: the number of those segments *)
Definition entry_depth (project_path : string) (e : FileEntry) : option nat :=
  length <$> entry_rel project_path e.

(** ** Sample trees for the depth bound *)

Definition depth_tree : node :=
  Dir "proj" true
    [ Dir "a" true [ ok_file "f.txt" 1; Dir "b" true [ ok_file "g.txt" 1 ] ] ].

Definition depth_fs : filesystem := only_at "proj" depth_tree.

(** ** A tree whose only file cannot be examined *)

Definition unreadable_tree : node :=
  Dir "proj" true [ File "a.py" (inr PermissionError) ].

Definition unreadable_fs : filesystem := only_at "proj" unreadable_tree.

(** ** Sample trees for the installation block *)

Definition two_configs_tree : node :=
  Dir "proj" true [ ok_file "package.json" 1; ok_file "Cargo.toml" 1 ].

Definition two_configs_fs : filesystem := only_at "proj" two_configs_tree.

Definition readme_only_tree : node :=
  Dir "package.json-parser" true [ ok_file "README.md" 1 ].

Definition readme_only_fs : filesystem := only_at "package.json-parser" readme_only_tree.

(** ** A tree with a named pipe *)

Definition pipe_tree : node :=
  Dir "proj" true
    [ ok_file "a.txt" 1; File "pipe" (inl {| st_size := 0; st_is_file := false |}) ].

Definition pipe_fs : filesystem := only_at "proj" pipe_tree.

Definition structure_of (a : option analysis) : structure (list string) :=
  match a with
  | Some (ProjectStructure s) => s
  | _ => {| s_root := ""; s_files := []; s_directories := []; s_key_files := [];
            s_languages := []; s_framework_indicators := [] |}
  end.

(** the order of [sorted(files, key=path)]: code-point order of the paths *)
Definition path_le (e1 e2 : FileEntry) : Prop :=
  String.le (path_key e1) (path_key e2).

(** the text of one line of the listing: the segments of the entry's
    path below the root, joined by slashes *)
Definition listing_line (project_path : string) (e : FileEntry) : string :=
  Py.join "/" (default [] (entry_rel project_path e)) ++ nl.


(** a text that [repr] leaves as it is, whichever quote it chooses *)
Definition plain (n : string) : Prop :=
  Py.repr_body "'" n = n /\ Py.repr_body Py.dquote n = n.

(** ** The parts of the document *)

(** lines 138-141 *)
Definition description_text (description : option string) : string :=
  if truthy description then default "" description ++ nl ++ nl
  else "A brief description of your project." ++ nl ++ nl.

(** lines 144-148 *)
Definition technologies_text (languages : list string) : string :=
  if negb (Nat.eqb (length languages) 0) then
    "## Technologies Used" ++ nl ++ nl ++
    String.concat "" (map (fun lang => "- " ++ Py.upper lang ++ nl) (sorted id languages)) ++ nl
  else "".

(** lines 164-165 *)
Definition usage_text : string :=
  "## Usage" ++ nl ++ nl ++ "Describe how to use your project here." ++ nl ++ nl.

(** the text of the Contributing section (lines 178-183) *)
Definition contributing_text : string :=
  "## Contributing" ++ nl ++ nl ++
  "1. Fork the repository" ++ nl ++
  "2. Create your feature branch (`git checkout -b feature/AmazingFeature`)" ++ nl ++
  "3. Commit your changes (`git commit -m 'Add some AmazingFeature'`)" ++ nl ++
  "4. Push to the branch (`git push origin feature/AmazingFeature`)" ++ nl ++
  "5. Open a Pull Request" ++ nl ++ nl.

(** the text of the License section (lines 187-188) *)
Definition license_text : string :=
  "## License" ++ nl ++ nl ++
  "This project is licensed under the terms found in the LICENSE file." ++ nl ++ nl.

(** lines 186-188 *)
Definition license_part (key_files : list (string * string)) : string :=
  if bool_decide (is_Some (dict_get "license" key_files)) then license_text else "".

(** the heading and fences of the listing around its lines (lines 169-175) *)
Definition structure_text (lines : list string) : string :=
  "## Project Structure" ++ nl ++ nl ++ "```" ++ nl ++
  String.concat "" lines ++ "```" ++ nl ++ nl.

(** ** Sample file systems for the root *)

(** a root of 300 characters: the stat fails with [ENAMETOOLONG] *)
Definition long_name : string := String.concat "" (repeat "a" 300).

Definition ENAMETOOLONG : Z := 36.

Definition long_name_fs : filesystem :=
  {| lookup := fun _ => None;
     failure := fun _ => StatOSError (OtherOSError ENAMETOOLONG) |}.

(** a root that bears an ignored name *)
Definition node_modules_tree : node :=
  Dir "node_modules" true [ ok_file "app.js" 1 ].

Definition node_modules_fs : filesystem := only_at "node_modules" node_modules_tree.

(** the names of the directories above an entry, as its path gives them *)
Definition directories_above (e : FileEntry) : list string :=
  removelast (p_tail (Path (entry_str "path" e))).


(** * More of the program *)

(** ** [get_project_info] *)

(** [str(n)] for the length of a list: decimal, no leading zero *)
Definition str_of_nat (n : nat) : string :=
  NilZero.string_of_uint (Nat.to_uint n).

Definition get_project_info (fs : filesystem) (project_path : string) : option string :=
  analysis ← analyze_project_structure fs project_path 3;
  match analysis with
  | ErrorResult error => Some ("Error analyzing project: " ++ error)
  | ProjectStructure a =>
      let info := "Project Analysis for: " ++ s_root a ++ nl in
      let info := info ++ "Total files: " ++ str_of_nat (length (s_files a)) ++ nl in
      let info := info ++ "Languages detected: " ++ Py.join ", " (s_languages a) ++ nl in
      let info := info ++ "Key files found: " ++ Py.join ", " (map fst (s_key_files a)) ++ nl in
      Some info
  end.

(** * Vocabulary of the further properties *)

(** [s.endswith(suffix)] *)
Fixpoint ends_with (suffix s : string) : bool :=
  String.eqb suffix s ||
  match s with
  | EmptyString => false
  | String _ s' => ends_with suffix s'
  end.

(** the characters that [fnmatch] does not take literally, brackets apart *)
Definition is_wild (c : ascii) : bool :=
  Ascii.eqb c "*" || Ascii.eqb c "?".

Fixpoint literal (pat : string) : bool :=
  match pat with
  | EmptyString => true
  | String c pat' => negb (is_wild c) && literal pat'
  end.

(** the patterns of [IGNORE_PATTERNS] without a star, and what follows
    the star in the others *)
Definition ignored_names : list string :=
  [ "__pycache__"; ".git"; ".gitignore"; "node_modules"; ".env"; ".DS_Store";
    ".vscode"; ".idea"; "dist"; "build"; ".pytest_cache" ].

Definition ignored_suffixes : list string :=
  [ ".pyc"; ".log"; ".tmp"; ".temp"; ".sqlite"; ".db" ].

(** line 92: the test of a file name against one pattern *)
Definition matches_pattern (file pattern : string) : bool :=
  String.eqb (Py.lower file) (Py.lower pattern) || String.eqb file pattern.

(** the file name passes the test for a pattern of the category *)
Definition matches_category (file category : string) : bool :=
  existsb (fun cp => String.eqb (fst cp) category && existsb (matches_pattern file) (snd cp))
          key_files_patterns.

Definition categories : list string := map fst key_files_patterns.

(** the path of the last of the files, given by name and path in the
    order of the walk, whose name passes the test for the category *)
Fixpoint last_matching (category : string) (l : list (string * string)) : option string :=
  match l with
  | [] => None
  | (file, path) :: rest =>
      match last_matching category rest with
      | Some p => Some p
      | None => if matches_category file category then Some path else None
      end
  end.

Definition name_and_path (e : FileEntry) : string * string :=
  (entry_str "name" e, entry_str "path" e).

(** the keys are pairwise distinct and are categories *)
Definition keys_ok (d : list (string * string)) : Prop :=
  NoDup (map fst d) /\ forall k, In k (map fst d) -> In k categories.

(** sibling entries bear distinct names, at every level *)
Fixpoint distinct_names (x : node) : Prop :=
  match x with
  | File _ _ => True
  | Dir _ _ children =>
      NoDup (map node_name children) /\
      (fix all (cs : list node) : Prop :=
         match cs with
         | [] => True
         | c :: cs' => distinct_names c /\ all cs'
         end) children
  end.

(** ** More sample trees *)

Definition licensed_tree : node :=
  Dir "proj" true
    [ ok_file "License.TXT" 1; ok_file "main.PY" 2;
      Dir "docs" true [ ok_file "LICENSE" 3; ok_file "README.rst" 4 ] ].

Definition licensed_fs : filesystem := only_at "proj" licensed_tree.

(** the segments of a visited file below the top of the walk *)
Definition rel_path (v : list string * string * stat_outcome) : list string :=
  (v.1.1 ++ [v.1.2])%list.

(** * Checks of the model on samples *)

Example str_in_ex : Py.str_in "b.c" "a/b.c/d" = true /\ Py.str_in "b.d" "a/b.c/d" = false.
Proof. split; reflexivity. Qed.

Example split_ex : Py.split "/" "a//b/" = ["a"; ""; "b"; ""].
Proof. reflexivity. Qed.

Example repr_ex :
  Py.str_dict [("readme", "p/README.md"); ("config", "it's")]
  = "{'readme': 'p/README.md', 'config': " ++ String Py.dquote "it's" ++ String Py.dquote "}".
Proof. reflexivity. Qed.

Example get_file_info_ex :
  get_file_info (Path "p/X.PY") (inl {| st_size := 3; st_is_file := true |}) !! "extension"
  = Some (VStr ".PY").
Proof. vm_compute. reflexivity. Qed.

Example should_ignore_ex :
  should_ignore "p/a.pyc" = true /\ should_ignore "p/.git" = true /\
  should_ignore "p/.github" = false /\ should_ignore "p/building" = false.
Proof. repeat split; reflexivity. Qed.

Example sample_files :
  map (entry_str "path") (files_of (scan_project sample_fs "proj"))
  = ["proj/README.md"; "proj/package.json"; "proj/broken.rb";
     "proj/src/index.js"; "proj/src/deep/x.PY"].
Proof. vm_compute. reflexivity. Qed.

Example sample_keys :
  key_files_of (scan_project sample_fs "./proj/")
  = [("readme", "proj/README.md"); ("config", "proj/package.json")].
Proof. vm_compute. reflexivity. Qed.

Example sample_languages :
  sorted id (languages_of (scan_project sample_fs "proj")) = ["js"; "py"; "rb"].
Proof. vm_compute. reflexivity. Qed.

Example sample_readme :
  generate_readme sample_fs "proj" None (Some "Demo.") = Some (
    "# proj" ++ nl ++ nl ++ "Demo." ++ nl ++ nl ++
    "## Technologies Used" ++ nl ++ nl ++ "- JS" ++ nl ++ "- PY" ++ nl ++ "- RB" ++ nl ++ nl ++
    "## Installation" ++ nl ++ nl ++ "```bash" ++ nl ++ "npm install" ++ nl ++ "```" ++ nl ++ nl ++
    "## Usage" ++ nl ++ nl ++ "Describe how to use your project here." ++ nl ++ nl ++
    "## Project Structure" ++ nl ++ nl ++ "```" ++ nl ++
    "README.md" ++ nl ++ "broken.rb" ++ nl ++ "package.json" ++ nl ++
    "src/deep/x.PY" ++ nl ++ "src/index.js" ++ nl ++ "```" ++ nl ++ nl ++
    "## Contributing" ++ nl ++ nl ++
    "1. Fork the repository" ++ nl ++
    "2. Create your feature branch (`git checkout -b feature/AmazingFeature`)" ++ nl ++
    "3. Commit your changes (`git commit -m 'Add some AmazingFeature'`)" ++ nl ++
    "4. Push to the branch (`git push origin feature/AmazingFeature`)" ++ nl ++
    "5. Open a Pull Request" ++ nl ++ nl).
Proof. vm_compute. reflexivity. Qed.

Lemma append_assoc (a b c : string) : (a ++ b) ++ c = a ++ (b ++ c).
Proof. induction a as [|x a IH]; simpl; [reflexivity | by rewrite IH]. Qed.

Lemma append_nil_r (a : string) : a ++ "" = a.
Proof. induction a as [|x a IH]; simpl; [reflexivity | by rewrite IH]. Qed.

Lemma append_length (a b : string) :
  String.length (a ++ b) = (String.length a + String.length b)%nat.
Proof. induction a as [|x a IH]; simpl; [reflexivity | by rewrite IH]. Qed.

Lemma has_char_app c a b : has_char c (a ++ b) = has_char c a || has_char c b.
Proof.
  induction a as [|x a IH]; simpl; [reflexivity|].
  rewrite IH. by rewrite orb_assoc.
Qed.

Lemma prefix_app_r (p s : string) : String.prefix p (p ++ s) = true.
Proof.
  induction p as [|x p IH]; simpl; [by destruct s|].
  destruct (ascii_dec x x); [exact IH | congruence].
Qed.

Lemma prefix_weaken (p s t : string) :
  String.prefix p s = true -> String.prefix p (s ++ t) = true.
Proof.
  revert s. induction p as [|x p IH]; intros s H.
  - by destruct (s ++ t).
  - destruct s as [|y s]; simpl in *; [discriminate|].
    destruct (ascii_dec x y); [by apply IH | discriminate].
Qed.

Lemma str_in_cons n x a :
  Py.str_in n (String x a) = String.prefix n (String x a) || Py.str_in n a.
Proof. reflexivity. Qed.

Lemma str_in_app_l n a b : Py.str_in n b = true -> Py.str_in n (a ++ b) = true.
Proof.
  intros H. induction a as [|x a IH]; [exact H|].
  change (String x a ++ b) with (String x (a ++ b)).
  rewrite str_in_cons, IH. apply orb_true_r.
Qed.

Lemma str_in_app_r n a b : Py.str_in n a = true -> Py.str_in n (a ++ b) = true.
Proof.
  induction a as [|x a IH].
  - destruct n; [by destruct b | discriminate].
  - rewrite str_in_cons. intros [H|H]%orb_true_iff.
    + change (String x a ++ b) with (String x (a ++ b)). rewrite str_in_cons.
      change (String x (a ++ b)) with (String x a ++ b).
      by rewrite (prefix_weaken _ _ _ H).
    + change (String x a ++ b) with (String x (a ++ b)).
      rewrite str_in_cons, (IH H). apply orb_true_r.
Qed.

Lemma str_in_mid n a b : Py.str_in n (a ++ n ++ b) = true.
Proof.
  apply str_in_app_l. destruct (n ++ b) as [|x r] eqn:E.
  - destruct n; [reflexivity | discriminate].
  - rewrite str_in_cons, <- E, prefix_app_r. reflexivity.
Qed.

Lemma drop_app_length (a b : string) : Py.drop (String.length a) (a ++ b) = b.
Proof. induction a as [|x a IH]; simpl; [by destruct b | exact IH]. Qed.

Lemma rfind_no_char c s : has_char c s = false -> Py.rfind c s = -1.
Proof.
  induction s as [|a s IH]; simpl; [reflexivity|].
  intros [Ha Hs]%orb_false_iff. rewrite (IH Hs), Ha. reflexivity.
Qed.

Lemma rfind_app_no_char c a b :
  has_char c b = false -> Py.rfind c (a ++ b) = Py.rfind c a.
Proof.
  intros Hb. induction a as [|x a IH]; simpl; [by apply rfind_no_char|].
  by rewrite IH.
Qed.

Lemma rfind_endswith c s :
  Py.endswith c s = true -> Py.rfind c s = Z.of_nat (String.length s) - 1.
Proof.
  induction s as [|a s IH]; [discriminate|].
  destruct s as [|b s].
  - simpl. intros ->. reflexivity.
  - intros H. change (Py.endswith c (String a (String b s))) with (Py.endswith c (String b s)) in H.
    specialize (IH H).
    change (Py.rfind c (String a (String b s))) with
      (let r := Py.rfind c (String b s) in
       if 0 <=? r then r + 1 else if Ascii.eqb a c then 0 else -1).
    cbv zeta. rewrite IH.
    change (String.length (String a (String b s))) with (S (String.length (String b s))).
    assert (0 <= Z.of_nat (String.length (String b s)) - 1) by (simpl; lia).
    destruct (0 <=? Z.of_nat (String.length (String b s)) - 1) eqn:E; lia.
Qed.

Lemma endswith_app_one c a : Py.endswith c (a ++ String c "") = true.
Proof.
  induction a as [|x a IH]; simpl; [apply Ascii.eqb_refl|].
  destruct (a ++ String c "") eqn:E; [by destruct a | exact IH].
Qed.

Lemma endswith_inv c s : Py.endswith c s = true -> exists a, s = a ++ String c "".
Proof.
  induction s as [|x s IH]; [discriminate|].
  destruct s as [|y s].
  - simpl. intros ->%Ascii.eqb_eq. by exists "".
  - intros H. destruct (IH H) as [a Ha]. exists (String x a). simpl. by rewrite <- Ha.
Qed.

Lemma split_nonempty sep s : Py.split sep s <> [].
Proof.
  destruct s as [|a s]; simpl; [discriminate|].
  destruct (Ascii.eqb a sep); [discriminate|]. by destruct (Py.split sep s).
Qed.

Lemma split_app_sep sep x y :
  Py.split sep (x ++ String sep y) = (Py.split sep x ++ Py.split sep y)%list.
Proof.
  induction x as [|a x IH]; simpl.
  - by rewrite Ascii.eqb_refl.
  - rewrite IH. destruct (Ascii.eqb a sep); [reflexivity|].
    pose proof (split_nonempty sep x).
    by destruct (Py.split sep x).
Qed.

Lemma split_no_char sep w : has_char sep w = false -> Py.split sep w = [w].
Proof.
  induction w as [|a w IH]; simpl; [reflexivity|].
  intros [Ha Hw]%orb_false_iff. by rewrite Ha, (IH Hw).
Qed.

Lemma split_elem_no_char sep s :
  Forall (fun w => has_char sep w = false) (Py.split sep s).
Proof.
  induction s as [|a s IH]; simpl; [by repeat constructor|].
  destruct (Ascii.eqb a sep) eqn:E; [by constructor|].
  pose proof (split_nonempty sep s).
  destruct (Py.split sep s) as [|w ws]; [done|].
  inversion IH; subst. constructor; [|done]. simpl. by rewrite E.
Qed.

Lemma prefix_slash_cons a s :
  String.prefix "/" (String a s) = Ascii.eqb "/" a.
Proof.
  change (String.prefix "/" (String a s)) with
    (if ascii_dec "/" a then String.prefix "" s else false).
  destruct (ascii_dec "/" a) as [<-|N].
  - rewrite Ascii.eqb_refl. by destruct s.
  - symmetry. by apply Ascii.eqb_neq.
Qed.

Lemma prefix_slash_no_char s : has_char "/" s = false -> String.prefix "/" s = false.
Proof.
  destruct s as [|a s]; [reflexivity|]. rewrite prefix_slash_cons.
  change (has_char "/" (String a s)) with (Ascii.eqb a "/" || has_char "/" s).
  intros [H _]%orb_false_iff. by rewrite Ascii.eqb_sym.
Qed.

Lemma prefix_slash_inv s : String.prefix "/" s = true -> exists r, s = String "/" r.
Proof.
  destruct s as [|a s]; [discriminate|]. rewrite prefix_slash_cons.
  intros ->%Ascii.eqb_eq. eauto.
Qed.

Lemma tail_Path s : p_tail (Path s) = filter segment (Py.split "/" s).
Proof.
  unfold Path, splitroot.
  destruct (String.prefix "/" s) eqn:E1; simpl; [|reflexivity].
  apply prefix_slash_inv in E1 as [r1 ->].
  change (Py.drop 1 (String "/" r1)) with r1.
  change (Py.drop 2 (String "/" r1)) with (Py.drop 1 r1).
  change (Py.split "/" (String "/" r1)) with ("" :: Py.split "/" r1).
  rewrite filter_cons_False by (intros [? _]; done).
  destruct (String.prefix "/" r1) eqn:E2; simpl; [|reflexivity].
  apply prefix_slash_inv in E2 as [r2 ->].
  change (Py.drop 1 (String "/" r2)) with r2.
  change (Py.split "/" (String "/" r2)) with ("" :: Py.split "/" r2).
  rewrite filter_cons_False by (intros [? _]; done).
  by destruct (String.prefix "/" r2).
Qed.

Lemma root_Path s : p_root (Path s) = fst (splitroot s).
Proof. unfold Path. by destruct (splitroot s). Qed.

Lemma Path_eq p q : p_root p = p_root q -> p_tail p = p_tail q -> p = q.
Proof. destruct p, q; simpl; by intros -> ->. Qed.

Lemma root_Path_cases s :
  p_root (Path s) = "" \/ p_root (Path s) = "/" \/ p_root (Path s) = "//".
Proof.
  rewrite root_Path. unfold splitroot.
  destruct (String.prefix "/" s); simpl; [|by left].
  destruct (_ || _); simpl; auto.
Qed.

Lemma wf_Path s : wf_path (Path s).
Proof.
  split; [apply root_Path_cases|]. rewrite tail_Path.
  pose proof (split_elem_no_char "/" s) as H.
  induction H as [|w ws Hw _ IH]; [constructor|].
  destruct (decide (segment w)) as [Hs|Hs].
  - rewrite filter_cons_True by done. constructor; [|done]. by destruct Hs.
  - by rewrite filter_cons_False.
Qed.

Lemma has_char_cons c a s : has_char c (String a s) = Ascii.eqb a c || has_char c s.
Proof. reflexivity. Qed.

Lemma valid_name_cons n : valid_name n ->
  exists a s, n = String a s /\ Ascii.eqb "/" a = false /\ has_char "/" s = false.
Proof.
  intros (Hne & _ & Hs). destruct n as [|a s]; [done|].
  rewrite has_char_cons in Hs. apply orb_false_iff in Hs as [Ha Hs].
  exists a, s. by rewrite Ascii.eqb_sym.
Qed.

Lemma root_app r d :
  String.prefix "/" d = false -> fst (splitroot (r ++ d)) = fst (splitroot r).
Proof.
  intros Hd. unfold splitroot.
  destruct r as [|a [|b [|c r]]]; cbn [String.append Py.drop];
    rewrite ?prefix_slash_cons, ?Hd; try reflexivity.
  - destruct (Ascii.eqb "/" a); reflexivity.
  - destruct (Ascii.eqb "/" a), (Ascii.eqb "/" b); reflexivity.
  - destruct (Ascii.eqb "/" a), (Ascii.eqb "/" b), (Ascii.eqb "/" c); reflexivity.
Qed.

Lemma root_app_slash r t :
  r <> "" -> Py.endswith "/" r = false ->
  fst (splitroot (r ++ String "/" t)) = fst (splitroot r).
Proof.
  intros Hne He. unfold splitroot.
  destruct r as [|a [|b [|c r]]]; cbn [String.append Py.drop Py.endswith] in *;
    rewrite ?prefix_slash_cons; try done.
  - rewrite Ascii.eqb_sym, He. reflexivity.
  - rewrite (Ascii.eqb_sym "/" b), He, Ascii.eqb_refl.
    destruct (Ascii.eqb "/" a); reflexivity.
  - destruct (Ascii.eqb "/" a), (Ascii.eqb "/" b), (Ascii.eqb "/" c); reflexivity.
Qed.

Lemma filter_segment_valid l : Forall valid_name l -> filter segment l = l.
Proof.
  induction 1 as [|x l Hx _ IH]; [reflexivity|].
  rewrite filter_cons_True by (destruct Hx as (? & ? & _); done). by rewrite IH.
Qed.

(** [Path(root) / file] appends one segment. *)
Lemma Path_join r d :
  valid_name d -> Path (os_path_join r d) = path_snoc (Path r) d.
Proof.
  intros Hd. pose proof Hd as (Hne & Hdot & Hs).
  pose proof (prefix_slash_no_char _ Hs) as Hp.
  assert (filter segment [d] = [d]) as Hfd by (by apply filter_segment_valid; constructor).
  unfold os_path_join. rewrite Hp.
  destruct (String.eqb r "" || Py.endswith "/" r) eqn:E.
  - apply Path_eq; simpl.
    + rewrite !root_Path. by apply root_app.
    + rewrite !tail_Path. apply orb_true_iff in E as [E|E].
      * apply String.eqb_eq in E as ->. simpl String.append.
        rewrite (split_no_char _ _ Hs), Hfd. reflexivity.
      * apply endswith_inv in E as [x ->]. rewrite append_assoc.
        change (String "/" "" ++ d) with (String "/" d).
        rewrite !split_app_sep, !filter_app, (split_no_char _ _ Hs), Hfd.
        change (Py.split "/" "") with [""].
        rewrite (filter_cons_False _ "") by (intros [? _]; done).
        by rewrite filter_nil, app_nil_r.
  - apply orb_false_iff in E as [E1 E2]. apply String.eqb_neq in E1.
    change ("/" ++ d) with (String "/" d).
    apply Path_eq; simpl.
    + rewrite !root_Path. by apply root_app_slash.
    + by rewrite !tail_Path, split_app_sep, filter_app, (split_no_char _ _ Hs), Hfd.
Qed.

Lemma join_cons2 sep a b l :
  Py.join sep (a :: b :: l) = a ++ sep ++ Py.join sep (b :: l).
Proof. reflexivity. Qed.

Lemma split_join l :
  Forall valid_name l -> l <> [] -> Py.split "/" (Py.join "/" l) = l.
Proof.
  induction 1 as [|a l Ha Hl IH]; [done|]. intros _.
  destruct Ha as (_ & _ & Ha).
  destruct l as [|b l]; [by apply split_no_char|].
  rewrite join_cons2. change ("/" ++ Py.join "/" (b :: l)) with (String "/" (Py.join "/" (b :: l))).
  rewrite split_app_sep, (split_no_char _ _ Ha), IH by done. reflexivity.
Qed.

Lemma prefix_slash_app a b :
  a <> "" -> String.prefix "/" (a ++ b) = String.prefix "/" a.
Proof. destruct a as [|x a]; [done|]. intros _. simpl String.append. by rewrite !prefix_slash_cons. Qed.

Lemma prefix_slash_join l :
  Forall valid_name l -> String.prefix "/" (Py.join "/" l) = false.
Proof.
  destruct 1 as [|a l Ha Hl]; [reflexivity|].
  pose proof Ha as (Hne & _ & Hs).
  destruct l as [|b l]; [by apply prefix_slash_no_char|].
  rewrite join_cons2, prefix_slash_app by done. by apply prefix_slash_no_char.
Qed.

Lemma join_nonempty l : Forall valid_name l -> l <> [] -> Py.join "/" l <> "".
Proof.
  destruct 1 as [|a l Ha Hl]; [done|]. intros _.
  apply valid_name_cons in Ha as (x & s & -> & _).
  destruct l; [done|]. rewrite join_cons2. done.
Qed.

(** [Path(str(p)) = p] for a path that was parsed from a string *)
Lemma Path_Path_str p : wf_path p -> Path (Path_str p) = p.
Proof.
  intros [Hr Ht]. pose proof (prefix_slash_join _ Ht) as Hp.
  assert (filter segment (Py.split "/" (Py.join "/" (p_tail p))) = p_tail p) as Hsplit.
  { destruct (p_tail p) as [|a l] eqn:El; [reflexivity|].
    rewrite split_join by done. by apply filter_segment_valid. }
  destruct p as [r t]; simpl in *. unfold Path_str; simpl.
  destruct Hr as [-> | [-> | ->]]; simpl String.eqb; cbv iota.
  - destruct (String.eqb_spec (Py.join "/" t) "") as [E|E].
    + destruct t as [|a l]; [|by apply join_nonempty in E]. reflexivity.
    + apply Path_eq; simpl; [|by rewrite tail_Path].
      rewrite root_Path. unfold splitroot. by rewrite Hp.
  - apply Path_eq; simpl.
    + rewrite root_Path. unfold splitroot. simpl String.append.
      rewrite prefix_slash_cons, Ascii.eqb_refl. cbn [negb Py.drop]. by rewrite Hp.
    + rewrite tail_Path. simpl String.append.
      change (Py.split "/" (String "/" (Py.join "/" t))) with ("" :: Py.split "/" (Py.join "/" t)).
      by rewrite filter_cons_False by (intros [? _]; done).
  - apply Path_eq; simpl.
    + rewrite root_Path. unfold splitroot. simpl String.append.
      rewrite prefix_slash_cons, Ascii.eqb_refl. cbn [negb Py.drop].
      rewrite prefix_slash_cons, Ascii.eqb_refl. cbn [negb orb]. by rewrite Hp.
    + rewrite tail_Path. simpl String.append.
      change (Py.split "/" (String "/" (String "/" (Py.join "/" t))))
        with ("" :: "" :: Py.split "/" (Py.join "/" t)).
      by rewrite !filter_cons_False by (intros [? _]; done).
Qed.

Lemma join_snoc l f :
  Py.join "/" (l ++ [f]) = (if l is [] then "" else Py.join "/" l ++ "/") ++ f.
Proof.
  induction l as [|a l IH]; [reflexivity|].
  destruct l as [|b l]; [by rewrite append_assoc|].
  change ((a :: b :: l) ++ [f])%list with (a :: b :: (l ++ [f]))%list.
  rewrite !join_cons2. change (b :: (l ++ [f]))%list with ((b :: l) ++ [f])%list.
  rewrite IH. by rewrite !append_assoc.
Qed.

(** what precedes the last segment in [str(p)] is empty or ends in a slash *)
Lemma Path_str_snoc p f :
  wf_path p -> valid_name f ->
  exists X, Path_str (path_snoc p f) = X ++ f /\ (X = "" \/ Py.endswith "/" X = true).
Proof.
  intros [Hr Ht] Hf. unfold Path_str, path_snoc. cbn [p_root p_tail].
  rewrite join_snoc.
  assert ((if p_tail p is [] then "" else Py.join "/" (p_tail p) ++ "/") = ""
          \/ Py.endswith "/" (if p_tail p is [] then "" else Py.join "/" (p_tail p) ++ "/") = true)
    as HX.
  { destruct (p_tail p); [by left | right]. apply endswith_app_one. }
  set (X := if p_tail p is [] then "" else Py.join "/" (p_tail p) ++ "/") in *.
  apply valid_name_cons in Hf as (a & s & -> & _).
  destruct Hr as [-> | [-> | ->]]; simpl String.eqb; cbv iota.
  - assert (String.eqb (X ++ String a s) "" = false) as ->.
    { apply String.eqb_neq. by destruct X. }
    eauto.
  - exists ("/" ++ X). split; [by rewrite append_assoc|]. right.
    destruct HX as [-> | HX]; [reflexivity|].
    destruct X; [done|]. exact HX.
  - exists ("//" ++ X). split; [by rewrite append_assoc|]. right.
    destruct HX as [-> | HX]; [reflexivity|].
    destruct X; [done|]. exact HX.
Qed.

Lemma basename_app X f :
  has_char "/" f = false -> X = "" \/ Py.endswith "/" X = true ->
  os_path_basename (X ++ f) = f.
Proof.
  intros Hf HX. unfold os_path_basename. rewrite (rfind_app_no_char _ _ _ Hf).
  destruct HX as [-> | HX]; [reflexivity|].
  rewrite (rfind_endswith _ _ HX).
  replace (Z.of_nat (String.length X) - 1 + 1) with (Z.of_nat (String.length X)) by lia.
  rewrite Nat2Z.id. apply drop_app_length.
Qed.

Lemma should_ignore_Path_str p f :
  wf_path p -> valid_name f ->
  should_ignore (Path_str (path_snoc p f)) = ignored_name f.
Proof.
  intros Hp Hf. destruct (Path_str_snoc p f Hp Hf) as (X & -> & HX).
  unfold should_ignore. rewrite basename_app; [reflexivity | apply Hf | done].
Qed.

Lemma should_ignore_join r d :
  valid_name d -> should_ignore (os_path_join r d) = ignored_name d.
Proof.
  intros Hd. pose proof Hd as (_ & _ & Hs).
  unfold should_ignore, os_path_join. rewrite (prefix_slash_no_char _ Hs).
  destruct (String.eqb r "" || Py.endswith "/" r) eqn:E.
  - rewrite basename_app; [reflexivity | done |].
    apply orb_true_iff in E as [E|E]; [left; by apply String.eqb_eq | by right].
  - rewrite <- append_assoc.
    rewrite basename_app; [reflexivity | done |]. right. apply endswith_app_one.
Qed.

Lemma name_snoc p f : name (path_snoc p f) = f.
Proof. unfold name, path_snoc; simpl. apply List.last_last. Qed.

Lemma strip_prefix_app l ds : strip_prefix l (l ++ ds) = Some ds.
Proof.
  induction l as [|a l IH]; simpl; [reflexivity|]. by rewrite String.eqb_refl.
Qed.

Lemma relative_to_app p ds :
  relative_to (path_app p ds) p = Some {| p_root := ""; p_tail := ds |}.
Proof.
  unfold relative_to, path_app; simpl.
  by rewrite String.eqb_refl, strip_prefix_app.
Qed.

Lemma path_app_snoc p ds f : path_snoc (path_app p ds) f = path_app p (ds ++ [f]).
Proof. apply Path_eq; simpl; [done | by rewrite <- app_assoc]. Qed.

Lemma wf_path_app p ds : wf_path p -> Forall valid_name ds -> wf_path (path_app p ds).
Proof. intros [Hr Ht] Hds. split; [done|]. simpl. by apply Forall_app. Qed.

Lemma wf_node_Dir n l cs :
  wf_node (Dir n l cs) <-> Forall (fun c => valid_name (node_name c) /\ wf_node c) cs.
Proof.
  simpl. induction cs as [|c cs IH]; [by split; [constructor|]|].
  rewrite Forall_cons, <- IH. reflexivity.
Qed.

Lemma os_walk_Dir {S : Type} body top n cs (s : S) :
  os_walk body top (Dir n true cs) s =
  match body top (dir_names cs) (nondir_entries cs) s with
  | None => None
  | Some (dirs, s1) => descend body top dirs cs s1
  end.
Proof.
  simpl. destruct (body top (dir_names cs) (nondir_entries cs) s) as [[dirs s1]|]; [|done].
  revert s1. induction cs as [|c cs IH]; intros s1; [reflexivity|].
  simpl. destruct (is_dir c && str_mem (node_name c) dirs); [|apply IH].
  destruct (os_walk body (os_path_join top (node_name c)) c s1); [apply IH | reflexivity].
Qed.

Lemma visited_Dir max_depth ds n cs :
  visited max_depth ds (Dir n true cs) =
  if max_depth <? Z.of_nat (length ds) then []
  else (here ds cs ++ below max_depth ds cs)%list.
Proof.
  simpl. destruct (max_depth <? Z.of_nat (length ds)); [reflexivity|].
  unfold here. f_equal. induction cs as [|c cs IH]; [reflexivity|].
  simpl. by rewrite IH.
Qed.

Lemma visited_deep max_depth ds x :
  max_depth < Z.of_nat (length ds) -> visited max_depth ds x = [].
Proof.
  intros H. destruct x as [|n [] cs]; try reflexivity.
  rewrite visited_Dir. apply Z.ltb_lt in H. by rewrite H.
Qed.

Section Walk.
Variable project_root : PurePath.
Variable max_depth : Z.
Hypothesis Hroot : wf_path project_root.

Lemma visit_file_add root ds s f st :
  Forall valid_name ds -> valid_name f ->
  Path root = path_app project_root ds ->
  visit_file root s (f, st) =
  if ignored_name f then s else add_file project_root s (ds, f, st).
Proof.
  intros Hds Hf Htop. unfold visit_file.
  rewrite (Path_join _ _ Hf), Htop, path_app_snoc.
  rewrite <- path_app_snoc, should_ignore_Path_str by (by try apply wf_path_app).
  rewrite path_app_snoc. reflexivity.
Qed.

Lemma fold_visit_file root ds files s :
  Forall valid_name ds -> Forall (fun e => valid_name (fst e)) files ->
  Path root = path_app project_root ds ->
  fold_left (visit_file root) files s =
  fold_left (add_file project_root)
    (map (fun e => (ds, fst e, snd e))
         (List.filter (fun e => negb (ignored_name (fst e))) files)) s.
Proof.
  intros Hds Hfs Htop. revert s.
  induction Hfs as [|[f st] files Hf _ IH]; intros s; [reflexivity|].
  cbn [fold_left List.filter fst snd].
  rewrite (visit_file_add root ds) by done.
  destruct (ignored_name f); cbn [negb map fold_left fst snd]; apply IH.
Qed.

Lemma walk_body_eq root ds dirs files s :
  Forall valid_name ds -> Forall (fun e => valid_name (fst e)) files ->
  Path root = path_app project_root ds ->
  walk_body project_root max_depth root dirs files s =
  Some (if max_depth <? Z.of_nat (length ds) then (dirs, s)
        else (List.filter (fun d => negb (should_ignore (os_path_join root d))) dirs,
              fold_left (add_file project_root)
                (map (fun e => (ds, fst e, snd e))
                     (List.filter (fun e => negb (ignored_name (fst e))) files)) s)).
Proof.
  intros Hds Hfs Htop. unfold walk_body.
  rewrite Htop, relative_to_app. cbn [mbind option_bind parts p_root p_tail String.eqb].
  destruct (max_depth <? Z.of_nat (length ds)); [reflexivity|].
  by rewrite (fold_visit_file root ds).
Qed.
End Walk.

Lemma str_mem_In x l : str_mem x l = true <-> In x l.
Proof.
  unfold str_mem. rewrite existsb_exists. split.
  - intros (y & Hy & ->%String.eqb_eq). done.
  - intros H. exists x. by rewrite String.eqb_refl.
Qed.

Lemma str_mem_filter x (P : string -> bool) l :
  str_mem x (List.filter P l) = str_mem x l && P x.
Proof.
  induction l as [|a l IH]; [reflexivity|].
  cbn [List.filter]. destruct (P a) eqn:Pa.
  - change (str_mem x (a :: List.filter P l)) with (String.eqb x a || str_mem x (List.filter P l)).
    change (str_mem x (a :: l)) with (String.eqb x a || str_mem x l).
    rewrite IH. destruct (String.eqb_spec x a) as [->|]; [|reflexivity].
    rewrite Pa. by rewrite orb_true_l.
  - change (str_mem x (a :: l)) with (String.eqb x a || str_mem x l).
    rewrite IH. destruct (String.eqb_spec x a) as [->|]; [|reflexivity].
    rewrite Pa. by rewrite !andb_false_r.
Qed.

Lemma str_mem_dir_names c cs :
  In c cs -> is_dir c = true -> str_mem (node_name c) (dir_names cs) = true.
Proof.
  intros Hc Hd. apply str_mem_In. unfold dir_names.
  apply in_map. apply filter_In. done.
Qed.

Lemma nondir_entries_valid cs :
  Forall (fun c => valid_name (node_name c) /\ wf_node c) cs ->
  Forall (fun e => valid_name (fst e)) (nondir_entries cs).
Proof.
  induction 1 as [|c cs [Hc _] _ IH]; [constructor|].
  destruct c; simpl; [by constructor | done].
Qed.

Section Refinement.
Variable project_root : PurePath.
Variable max_depth : Z.
Hypothesis Hroot : wf_path project_root.

Let body := walk_body project_root max_depth.
Let walks (c : node) : Prop :=
  forall ds top s, wf_node c -> Forall valid_name ds ->
    Path top = path_app project_root ds ->
    os_walk body top c s = Some (fold_left (add_file project_root) (visited max_depth ds c) s).

Lemma descend_below ds top dirs cs s :
  Forall walks cs ->
  Forall (fun c => valid_name (node_name c) /\ wf_node c) cs ->
  Forall valid_name ds ->
  Path top = path_app project_root ds ->
  (forall c, In c cs -> is_dir c = true ->
     str_mem (node_name c) dirs =
     (max_depth <? Z.of_nat (length ds)) || negb (ignored_name (node_name c))) ->
  descend body top dirs cs s =
  Some (fold_left (add_file project_root) (below max_depth ds cs) s).
Proof.
  intros HIH Hwf Hds Htop. revert s.
  induction HIH as [|c cs Hc _ IH]; intros s Hdirs; [reflexivity|].
  apply Forall_cons in Hwf as [[Hn Hw] Hwf].
  specialize (IH Hwf).
  assert (forall s, descend body top dirs cs s =
            Some (fold_left (add_file project_root) (below max_depth ds cs) s)) as IH'.
  { intros s'. apply IH. intros c' Hc'. apply Hdirs. by right. }
  cbn [descend below]. rewrite fold_left_app.
  destruct (is_dir c) eqn:Ed; cbn [andb]; [|apply IH'].
  rewrite (Hdirs c) by (done || by left).
  assert (Path (os_path_join top (node_name c))
          = path_app project_root (ds ++ [node_name c])) as Hc'.
  { by rewrite (Path_join _ _ Hn), Htop, path_app_snoc. }
  assert (Forall valid_name (ds ++ [node_name c])) as Hds'.
  { apply Forall_app. split; [done | by apply Forall_singleton]. }
  destruct (max_depth <? Z.of_nat (length ds)) eqn:Edeep; cbn [orb].
  - rewrite (Hc _ _ _ Hw Hds' Hc').
    rewrite visited_deep.
    2:{ apply Z.ltb_lt in Edeep. rewrite length_app. simpl. lia. }
    rewrite IH'. by destruct (negb (ignored_name (node_name c))).
  - destruct (negb (ignored_name (node_name c))); [|apply IH'].
    rewrite (Hc _ _ _ Hw Hds' Hc'). apply IH'.
Qed.

Lemma os_walk_visited x : walks x.
Proof.
  induction x as [n st | n l cs IH] using node_ind'; intros ds top s Hwf Hds Htop.
  - reflexivity.
  - destruct l; [|reflexivity].
    apply wf_node_Dir in Hwf.
    rewrite os_walk_Dir, visited_Dir. unfold body at 1.
    rewrite (walk_body_eq project_root max_depth Hroot top ds)
      by (done || by apply nondir_entries_valid).
    destruct (max_depth <? Z.of_nat (length ds)) eqn:Edeep.
    + rewrite (descend_below ds) by
        (try done; intros c Hc Hd; rewrite Edeep; by apply str_mem_dir_names).
      clear IH. induction Hwf as [|c cs _ _ IHcs]; [reflexivity|].
      cbn [below]. rewrite fold_left_app, visited_deep.
      2:{ apply Z.ltb_lt in Edeep. rewrite length_app. simpl. lia. }
      by destruct (is_dir c && negb (ignored_name (node_name c))).
    + rewrite fold_left_app. apply descend_below; try done.
      intros c Hc Hd. rewrite Edeep, str_mem_filter, str_mem_dir_names by done.
      cbn [andb orb]. rewrite should_ignore_join; [done|].
      rewrite Forall_forall in Hwf. apply Hwf. by apply list_elem_of_In.
Qed.
End Refinement.

Lemma add_file_files pr vs s :
  s_files (fold_left (add_file pr) vs s) = (s_files s ++ map (entry_of pr) vs)%list.
Proof.
  revert s. induction vs as [|[[ds f] st] vs IH]; intros s; simpl.
  - by rewrite app_nil_r.
  - rewrite IH. simpl. by rewrite <- app_assoc.
Qed.

Lemma add_file_root pr vs s : s_root (fold_left (add_file pr) vs s) = s_root s.
Proof.
  revert s. induction vs as [|[[ds f] st] vs IH]; intros s; simpl; [done|].
  by rewrite IH.
Qed.

Lemma add_file_languages pr vs s tag :
  tag ∈ s_languages (fold_left (add_file pr) vs s) <->
  tag ∈ s_languages s \/ exists v, In v vs /\ language_tag v.1.2 = Some tag.
Proof.
  revert s. induction vs as [|[[ds f] st] vs IH]; intros s.
  - simpl. split; [by left | intros [H | (v & [] & _)]; done].
  - cbn [fold_left]. rewrite IH. cbn [add_file s_languages].
    unfold suffix. rewrite <- path_app_snoc, name_snoc.
    unfold language_tag at 2.
    destruct (str_mem (Py.lower (suffix_of_name f)) language_extensions) eqn:E.
    + rewrite elem_of_union, elem_of_singleton. split.
      * intros [[-> | H] | (v & Hv & Ht)]; [right | by left | right].
        -- exists (ds, f, st). split; [by left|]. cbn [fst snd]. unfold language_tag. by rewrite E.
        -- exists v. split; [by right | done].
      * intros [H | (v & [<- | Hv] & Ht)]; [by left; right | | right; by exists v].
        left; left. cbn [fst snd] in Ht. unfold language_tag in Ht. rewrite E in Ht. congruence.
    + split.
      * intros [H | (v & Hv & Ht)]; [by left | right]. exists v. split; [by right | done].
      * intros [H | (v & [<- | Hv] & Ht)]; [by left | | right; by exists v].
        cbn [fst snd] in Ht. unfold language_tag in Ht. rewrite E in Ht. done.
Qed.

Lemma Path_app_nil p : path_app p [] = p.
Proof. apply Path_eq; simpl; [done | by rewrite app_nil_r]. Qed.

(** On an existing root the analysis does not raise, and its result is
    the fold of [add_file] over the visited files. *)
Lemma analyze_visited (fs : filesystem) project_path max_depth x :
  fs (Path_str (Path project_path)) = Some x -> wf_node x ->
  analyze_project_structure fs project_path max_depth =
  Some (ProjectStructure
    (finish (fold_left (add_file (Path project_path)) (visited max_depth [] x)
                       (initial (Path project_path))))).
Proof.
  intros Hfs Hwf. unfold analyze_project_structure, Path_exists. rewrite Hfs.
  cbn [mbind option_bind negb].
  rewrite (os_walk_visited (Path project_path) max_depth (wf_Path _) x []);
    [reflexivity | done | constructor |].
  by rewrite Path_app_nil, Path_Path_str by apply wf_Path.
Qed.

(** ** What the walk visits *)

Lemma In_nondir_entries f st cs : In (f, st) (nondir_entries cs) <-> In (File f st) cs.
Proof.
  induction cs as [|c cs IH]; [done|].
  destruct c as [g st' | g l cs']; simpl; rewrite IH; [|by intuition].
  split; (intros [H|H]; [left; congruence | by right]).
Qed.

Lemma In_below max_depth ds cs v :
  In v (below max_depth ds cs) ->
  exists c, In c cs /\ is_dir c = true /\ ignored_name (node_name c) = false /\
            In v (visited max_depth (ds ++ [node_name c]) c).
Proof.
  induction cs as [|c cs IH]; [done|].
  cbn [below]. rewrite in_app_iff. intros [H|H].
  - destruct (is_dir c) eqn:Ed, (ignored_name (node_name c)) eqn:Ei; try done.
    exists c. repeat split; (done || by left).
  - destruct (IH H) as (c' & Hc' & ?). exists c'. split; [by right | done].
Qed.

Lemma visited_sound max_depth x :
  forall ds v, wf_node x -> In v (visited max_depth ds x) ->
  exists rel, visited_ok max_depth x ds v rel.
Proof.
  induction x as [n st | n l cs IH] using node_ind'; intros ds v Hwf Hv; [done|].
  destruct l; [|done]. apply wf_node_Dir in Hwf.
  rewrite visited_Dir in Hv.
  destruct (max_depth <? Z.of_nat (length ds)) eqn:Edeep; [done|].
  apply Z.ltb_ge in Edeep.
  rewrite Forall_forall in IH, Hwf.
  apply in_app_iff in Hv as [Hv|Hv].
  - unfold here in Hv. apply in_map_iff in Hv as ([f st] & <- & Hf).
    apply filter_In in Hf as [Hf Hi]. cbn [fst snd] in *.
    apply In_nondir_entries in Hf.
    exists []. split; cbn [fst snd].
    + by rewrite app_nil_r.
    + by constructor.
    + constructor.
    + by destruct (ignored_name f).
    + done.
    + constructor.
    + apply list_elem_of_In in Hf. by destruct (Hwf _ Hf).
  - apply In_below in Hv as (c & Hc & Hd & Hi & Hv).
    pose proof Hc as Hc'. apply list_elem_of_In in Hc'.
    destruct (Hwf _ Hc') as [Hn Hw].
    destruct (IH _ Hc' _ _ Hw Hv) as (rel & [H1 H2 H3 H4 H5 H6 H7]).
    exists (node_name c :: rel). split; try done.
    + by rewrite H1, <- app_assoc.
    + by apply file_below.
    + by constructor.
    + by constructor.
Qed.

Lemma In_below_intro max_depth ds cs c v :
  In c cs -> is_dir c = true -> ignored_name (node_name c) = false ->
  In v (visited max_depth (ds ++ [node_name c]) c) -> In v (below max_depth ds cs).
Proof.
  intros Hc Hd Hi Hv. induction cs as [|c' cs IH]; [done|].
  cbn [below]. apply in_app_iff. destruct Hc as [-> | Hc].
  - left. by rewrite Hd, Hi.
  - right. by apply IH.
Qed.

(** conversely, a file within the bound, not ignored, below directories
    that are listed and not ignored, is visited *)
Lemma visited_complete max_depth x rel f st :
  file_at x rel f st ->
  forall ds,
  Forall (fun d => ignored_name d = false) rel -> ignored_name f = false ->
  Z.of_nat (length (ds ++ rel)) <= max_depth ->
  In ((ds ++ rel)%list, f, st) (visited max_depth ds x).
Proof.
  induction 1 as [n cs f st Hf | n cs c rel f st Hc Hd Hat IH]; intros ds Hrel Hi Hlen.
  - rewrite visited_Dir, app_nil_r in *.
    destruct (max_depth <? Z.of_nat (length ds)) eqn:E; [apply Z.ltb_lt in E; lia|].
    apply in_app_iff. left. unfold here. apply in_map_iff.
    exists (f, st). split; [done|]. apply filter_In. split.
    + by apply In_nondir_entries.
    + cbn [fst]. by rewrite Hi.
  - rewrite visited_Dir. rewrite length_app in Hlen. simpl in Hlen.
    destruct (max_depth <? Z.of_nat (length ds)) eqn:E; [apply Z.ltb_lt in E; lia|].
    apply Forall_cons in Hrel as [Hic Hrel].
    apply in_app_iff. right. apply (In_below_intro _ _ _ c); try done.
    replace (ds ++ node_name c :: rel)%list with ((ds ++ [node_name c]) ++ rel)%list
      by (by rewrite <- app_assoc).
    apply IH; try done. rewrite !length_app. simpl. lia.
Qed.

(** ** Entries *)

Lemma get_file_info_name p st : get_file_info p st !! "name" = Some (VStr (name p)).
Proof. destruct st; unfold get_file_info; by simplify_map_eq. Qed.

Lemma get_file_info_path p st : get_file_info p st !! "path" = Some (VStr (Path_str p)).
Proof. destruct st; unfold get_file_info; by simplify_map_eq. Qed.

Lemma entry_path_of pr v :
  entry_path (entry_of pr v) = Some (Path_str (path_app pr (v.1.1 ++ [v.1.2]))).
Proof. unfold entry_path, entry_of. by rewrite get_file_info_path. Qed.

Lemma entry_name_of pr v : entry_of pr v !! "name" = Some (VStr v.1.2).
Proof.
  unfold entry_of. by rewrite get_file_info_name, <- path_app_snoc, name_snoc.
Qed.

Lemma entry_rel_of project_path v :
  Forall valid_name v.1.1 -> valid_name v.1.2 ->
  entry_rel project_path (entry_of (Path project_path) v) = Some (v.1.1 ++ [v.1.2])%list.
Proof.
  intros Hds Hf. unfold entry_rel. rewrite entry_path_of. cbn [mbind option_bind].
  rewrite Path_Path_str.
  - by rewrite relative_to_app.
  - apply wf_path_app; [apply wf_Path|]. apply Forall_app. split; [done|].
    by apply Forall_singleton.
Qed.

Lemma files_of_analyze (fs : filesystem) project_path max_depth x :
  fs (Path_str (Path project_path)) = Some x -> wf_node x ->
  files_of (analyze_project_structure fs project_path max_depth)
  = map (entry_of (Path project_path)) (visited max_depth [] x).
Proof.
  intros Hfs Hwf. rewrite (analyze_visited _ _ _ _ Hfs Hwf). cbn [files_of finish s_files].
  by rewrite add_file_files.
Qed.

(** every file within the bound that is not ignored, below directories
    that are listed and not ignored, has its entry in [files] *)
Lemma files_complete (fs : filesystem) project_path max_depth x rel f st :
  fs (Path_str (Path project_path)) = Some x -> wf_node x ->
  file_at x rel f st ->
  Forall (fun d => ignored_name d = false) rel -> ignored_name f = false ->
  Z.of_nat (length rel) <= max_depth ->
  In (get_file_info (path_app (Path project_path) (rel ++ [f])) st)
     (files_of (analyze_project_structure fs project_path max_depth)).
Proof.
  intros Hfs Hwf Hat Hrel Hf Hlen. rewrite (files_of_analyze _ _ _ _ Hfs Hwf).
  apply in_map_iff. exists (rel, f, st). split; [reflexivity|].
  by apply (visited_complete max_depth x rel f st Hat []).
Qed.

Lemma visited_ok_valid max_depth x v rel :
  visited_ok max_depth x [] v rel -> Forall valid_name v.1.1 /\ valid_name v.1.2.
Proof. intros [H1 _ _ _ _ H6 H7]. rewrite H1. done. Qed.

Ltac solve_wf := cbn; repeat split; (discriminate || reflexivity).

(** * The claims *)

(** ** Depth bound *)

(** C1, as stated, fails: with [max_depth = 1] the file [proj/a/f.txt],
    whose path has two segments below the root, is in [files]. *)
Lemma depth_bound_counterexample :
  ~ (forall e, In e (files_of (analyze_project_structure depth_fs "proj" 1)) ->
       forall n, entry_depth "proj" e = Some n -> Z.of_nat n <= 1).
Proof.
  intros H.
  specialize (H (nth 0 (files_of (analyze_project_structure depth_fs "proj" 1)) ∅)).
  specialize (H ltac:(vm_compute; left; reflexivity) 2%nat ltac:(vm_compute; reflexivity)).
  lia.
Qed.

Example depth_bound_paths :
  map (entry_str "path") (files_of (analyze_project_structure depth_fs "proj" 1))
  = ["proj/a/f.txt"].
Proof. vm_compute. reflexivity. Qed.

(** C1, amended: the bound applies to the directory that holds the file,
    so the path of an entry has at most [max_depth + 1] segments below the
    root; with [max_depth = 1] no entry has three segments or more. *)
Theorem files_depth_bound (fs : filesystem) project_path max_depth x e :
  fs (Path_str (Path project_path)) = Some x -> wf_node x ->
  In e (files_of (analyze_project_structure fs project_path max_depth)) ->
  exists n, entry_depth project_path e = Some n /\ Z.of_nat n <= max_depth + 1 /\
            (max_depth = 1 -> (n < 3)%nat).
Proof.
  intros Hfs Hwf He. rewrite (files_of_analyze _ _ _ _ Hfs Hwf) in He.
  apply in_map_iff in He as (v & <- & Hv).
  destruct (visited_sound _ _ _ _ Hwf Hv) as (rel & Hok).
  destruct (visited_ok_valid _ _ _ _ Hok) as [Hds Hf].
  exists (length (v.1.1 ++ [v.1.2])). unfold entry_depth.
  rewrite entry_rel_of by done. split; [reflexivity|].
  pose proof (vo_depth _ _ _ _ _ Hok) as Hd.
  rewrite length_app. simpl. lia.
Qed.

Lemma files_depth_bound_witness :
  exists n,
    entry_depth "proj" (nth 0 (files_of (analyze_project_structure depth_fs "proj" 1)) ∅)
      = Some n /\ Z.of_nat n <= 1 + 1 /\ (1 = 1 -> (n < 3)%nat).
Proof.
  apply (files_depth_bound depth_fs "proj" 1 depth_tree).
  - reflexivity.
  - solve_wf.
  - vm_compute. left. reflexivity.
Defined.

(** ** Ignored names *)

(** C4, as stated, fails: the root itself is not tested, so under a
    root named [node_modules] the entry [node_modules/app.js] is returned
    although it lies in a directory whose name matches a pattern. *)
Lemma ignored_root_counterexample :
  ~ (forall e, In e (files_of (scan_project node_modules_fs "node_modules")) ->
       Forall (fun d => ignored_name d = false) (directories_above e)).
Proof.
  intros H.
  specialize (H (nth 0 (files_of (scan_project node_modules_fs "node_modules")) ∅)
                ltac:(vm_compute; left; reflexivity)).
  assert (directories_above (nth 0 (files_of (scan_project node_modules_fs "node_modules")) ∅)
          = ["node_modules"]) as E by (vm_compute; reflexivity).
  rewrite E in H. apply Forall_cons in H as [H _]. vm_compute in H. discriminate.
Qed.

(** C4, amended: on an existing root, every entry of [files] is a file
    of the tree whose own name matches no ignore pattern and that is
    reached from the root through directories below the root whose names
    match no ignore pattern; the name of the root is not tested. *)
Theorem files_not_ignored (fs : filesystem) project_path x e :
  fs (Path_str (Path project_path)) = Some x -> wf_node x ->
  In e (files_of (scan_project fs project_path)) ->
  exists ds f st,
    entry_rel project_path e = Some (ds ++ [f])%list /\
    file_at x ds f st /\
    e !! "name" = Some (VStr f) /\
    should_ignore (entry_str "path" e) = false /\
    ignored_name f = false /\
    Forall (fun d => ignored_name d = false) ds.
Proof.
  intros Hfs Hwf He. unfold scan_project in He.
  rewrite (files_of_analyze _ _ _ _ Hfs Hwf) in He.
  apply in_map_iff in He as (v & <- & Hv).
  destruct (visited_sound _ _ _ _ Hwf Hv) as (rel & Hok).
  destruct (visited_ok_valid _ _ _ _ Hok) as [Hds Hf].
  destruct Hok as [H1 H2 H3 H4 H5 H6 H7]. simpl in H1. subst rel.
  exists v.1.1, v.1.2, v.2. repeat split; try done.
  - by apply entry_rel_of.
  - apply entry_name_of.
  - unfold entry_str, entry_of. rewrite get_file_info_path, <- path_app_snoc.
    rewrite should_ignore_Path_str; [done | | done].
    apply wf_path_app; [apply wf_Path | done].
Qed.

Lemma files_not_ignored_witness :
  exists ds f st,
    entry_rel "proj" (nth 3 (files_of (scan_project sample_fs "proj")) ∅)
      = Some (ds ++ [f])%list /\
    file_at sample_tree ds f st /\
    nth 3 (files_of (scan_project sample_fs "proj")) ∅ !! "name" = Some (VStr f) /\
    should_ignore (entry_str "path" (nth 3 (files_of (scan_project sample_fs "proj")) ∅)) = false /\
    ignored_name f = false /\
    Forall (fun d => ignored_name d = false) ds.
Proof.
  apply (files_not_ignored sample_fs "proj" sample_tree).
  - reflexivity.
  - solve_wf.
  - vm_compute. do 3 right. left. reflexivity.
Defined.

(** ** The metadata probe *)

Lemma rfind_split c s :
  0 <= Py.rfind c s ->
  exists a b, s = a ++ String c b /\ Z.of_nat (String.length a) = Py.rfind c s /\
              has_char c b = false.
Proof.
  induction s as [|x s IH]; [simpl; lia|].
  change (Py.rfind c (String x s)) with
    (let r := Py.rfind c s in if 0 <=? r then r + 1 else if Ascii.eqb x c then 0 else -1).
  cbv zeta. destruct (0 <=? Py.rfind c s) eqn:E.
  - intros _. apply Z.leb_le in E. destruct (IH E) as (a & b & -> & Hl & Hb).
    exists (String x a), b. repeat split; [|done]. simpl String.length. lia.
  - destruct (Ascii.eqb_spec x c) as [->|]; [|lia]. intros _.
    exists "", s. repeat split. apply Z.leb_gt in E.
    destruct (has_char c s) eqn:Hc; [|done]. exfalso.
    clear IH. induction s as [|y s IH]; [done|].
    change (Py.rfind c (String y s)) with
      (let r := Py.rfind c s in if 0 <=? r then r + 1 else if Ascii.eqb y c then 0 else -1) in E.
    cbv zeta in E. rewrite has_char_cons in Hc.
    destruct (0 <=? Py.rfind c s) eqn:E'; [apply Z.leb_le in E'; lia|].
    destruct (Ascii.eqb y c); [lia|]. apply IH; [lia | done].
Qed.

Lemma suffix_of_name_dot stem ext :
  stem <> "" -> ext <> "" -> has_char "." ext = false ->
  suffix_of_name (stem ++ "." ++ ext) = "." ++ ext.
Proof.
  intros Hs He Hd. unfold suffix_of_name.
  assert (Py.rfind "." (stem ++ "." ++ ext) = Z.of_nat (String.length stem)) as ->.
  { rewrite <- append_assoc, (rfind_app_no_char _ _ _ Hd).
    rewrite (rfind_endswith _ _ (endswith_app_one _ _)), append_length. simpl. lia. }
  rewrite !append_length, Nat2Z.id, drop_app_length.
  destruct stem; [done|]. destruct ext; [done|].
  simpl String.length.
  rewrite !(proj2 (Z.ltb_lt _ _)) by lia. reflexivity.
Qed.

Lemma suffix_of_name_none n :
  ~ (exists stem ext, n = stem ++ "." ++ ext /\ stem <> "" /\ ext <> "" /\
                      has_char "." ext = false) ->
  suffix_of_name n = "".
Proof.
  intros H. unfold suffix_of_name.
  destruct (0 <? Py.rfind "." n) eqn:E1; [|done].
  destruct (Py.rfind "." n <? Z.of_nat (String.length n) - 1) eqn:E2; [|done].
  exfalso. apply H. apply Z.ltb_lt in E1, E2.
  destruct (rfind_split "." n) as (a & b & Hn & Hl & Hb); [lia|].
  rewrite <- Hl in E1, E2. apply (f_equal String.length) in Hn as Hlen.
  rewrite append_length in Hlen. simpl String.length in Hlen.
  exists a, b. repeat split; try done.
  - intros ->. simpl in E1. lia.
  - intros ->. simpl in Hlen. lia.
Qed.

(** C5, as stated, fails: the extension of [X.PY] is recorded as [.PY]. *)
Lemma extension_case_counterexample :
  get_file_info (Path "proj/X.PY") (inl {| st_size := 0; st_is_file := true |}) !! "extension"
    = Some (VStr ".PY")
  /\ VStr ".PY" <> VStr (Py.lower ".PY").
Proof. split; [vm_compute; reflexivity | discriminate]. Qed.

(** C5, amended: on a successful probe the [extension] field is the
    suffix of the file name from its last dot on, in the case of the
    name, or the empty string when the name has no such suffix. *)
Theorem extension_is_suffix file_path stat :
  (forall stem ext,
     name file_path = stem ++ "." ++ ext ->
     stem <> "" -> ext <> "" -> has_char "." ext = false ->
     get_file_info file_path (inl stat) !! "extension" = Some (VStr ("." ++ ext))) /\
  (~ (exists stem ext, name file_path = stem ++ "." ++ ext /\ stem <> "" /\ ext <> "" /\
                       has_char "." ext = false) ->
   get_file_info file_path (inl stat) !! "extension" = Some (VStr "")).
Proof.
  assert (get_file_info file_path (inl stat) !! "extension"
          = Some (VStr (suffix_of_name (name file_path)))) as ->.
  { unfold get_file_info, suffix. by simplify_map_eq. }
  split.
  - intros stem ext -> Hs He Hd. by rewrite suffix_of_name_dot.
  - intros H. by rewrite suffix_of_name_none.
Qed.

Lemma extension_is_suffix_witness :
  get_file_info (Path "proj/X.PY") (inl {| st_size := 0; st_is_file := true |}) !! "extension"
    = Some (VStr ".PY")
  /\ get_file_info (Path "proj/Makefile") (inl {| st_size := 0; st_is_file := true |}) !! "extension"
    = Some (VStr "").
Proof.
  split.
  - apply (proj1 (extension_is_suffix (Path "proj/X.PY") _) "X" "PY");
      [reflexivity | discriminate | discriminate | reflexivity].
  - apply (proj2 (extension_is_suffix (Path "proj/Makefile") _)).
    intros (stem & ext & H & _).
    apply (f_equal (has_char ".")) in H. rewrite has_char_app in H.
    change (has_char "." ("." ++ ext)) with true in H.
    rewrite orb_true_r in H. vm_compute in H. discriminate.
Defined.

(** C7: a failed stat gives an entry holding exactly [name], [path] and
    [error]; every entry has either the three metadata fields and no
    [error], or [error] and none of the three; and the loop over the
    files of a directory goes on whatever the outcomes: the number of
    entries it appends depends on the names alone. *)
Theorem probe_degrades_gracefully :
  (forall file_path err,
     dom (get_file_info file_path (inr err)) = ({[ "name"; "path"; "error" ]} : gset string)) /\
  (forall file_path st,
     let e := get_file_info file_path st in
     (is_Some (e !! "size") /\ is_Some (e !! "is_file") /\ is_Some (e !! "extension") /\
      e !! "error" = None) \/
     (e !! "size" = None /\ e !! "is_file" = None /\ e !! "extension" = None /\
      is_Some (e !! "error"))) /\
  (forall root s files,
     length (s_files (fold_left (visit_file root) files s)) =
     (length (s_files s) +
      length (List.filter
                (fun file => negb (should_ignore (Path_str (Path (os_path_join root file)))))
                (map fst files)))%nat).
Proof.
  split; [|split].
  - intros file_path err. unfold get_file_info.
    rewrite !dom_insert_L, dom_singleton_L. set_solver.
  - intros file_path [stat|err]; cbv zeta; unfold get_file_info; [left | right];
      repeat split; by simplify_map_eq.
  - intros root s files. revert s.
    induction files as [|[file st] files IH]; intros s; [simpl; lia|].
    cbn [fold_left map List.filter fst]. rewrite IH. unfold visit_file.
    destruct (should_ignore (Path_str (Path (os_path_join root file)))); cbn [negb].
    + reflexivity.
    + cbn [s_files]. rewrite length_app. simpl. lia.
Qed.

(** C10: whatever the error of the stat, the [error] field is the
    literal [Access denied]; no entry carries another message. *)
Theorem probe_error_message file_path :
  (forall err, get_file_info file_path (inr err) !! "error" = Some (VStr "Access denied")) /\
  (forall st v, get_file_info file_path st !! "error" = Some v -> v = VStr "Access denied").
Proof.
  split.
  - intros err. unfold get_file_info. by simplify_map_eq.
  - intros [stat|err] v; unfold get_file_info; intros H; by simplify_map_eq.
Qed.

Lemma probe_error_message_witness :
  VStr "Access denied" = VStr "Access denied".
Proof.
  apply (proj2 (probe_error_message (Path "proj/x")) (inr PermissionError)).
  vm_compute. reflexivity.
Defined.

(** ** Languages *)

(** C3, as stated, fails: a file whose probe failed still contributes
    its language tag. *)
Lemma languages_error_counterexample :
  ~ (forall tag,
       In tag (languages_of (scan_project unreadable_fs "proj")) <->
       exists e f, In e (files_of (scan_project unreadable_fs "proj")) /\
                   e !! "error" = None /\
                   e !! "name" = Some (VStr f) /\ language_tag f = Some tag).
Proof.
  intros H.
  destruct (proj1 (H "py") ltac:(vm_compute; left; reflexivity)) as (e & f & He & Herr & _).
  vm_compute in He. destruct He as [<- | []].
  vm_compute in Herr. discriminate.
Qed.

Lemma language_tag_allowlisted f tag :
  language_tag f = Some tag -> In ("." ++ tag) language_extensions.
Proof.
  unfold language_tag.
  destruct (str_mem (Py.lower (suffix_of_name f)) language_extensions) eqn:E; [|done].
  intros [= <-]. apply str_mem_In in E.
  set (ext := Py.lower (suffix_of_name f)) in *. clearbody ext.
  repeat (destruct E as [<- | E]; [vm_compute; tauto|]). destruct E.
Qed.

(** C3, amended: [languages] has no duplicate, and its tags are exactly
    the tags of the allowlisted extensions (lowercased, without the dot)
    of the names of the entries of [files], failed probes included. *)
Theorem languages_exact (fs : filesystem) project_path max_depth x :
  fs (Path_str (Path project_path)) = Some x -> wf_node x ->
  NoDup (languages_of (analyze_project_structure fs project_path max_depth)) /\
  (forall tag,
     In tag (languages_of (analyze_project_structure fs project_path max_depth)) <->
     exists e f, In e (files_of (analyze_project_structure fs project_path max_depth)) /\
                 e !! "name" = Some (VStr f) /\ language_tag f = Some tag) /\
  (forall tag,
     In tag (languages_of (analyze_project_structure fs project_path max_depth)) ->
     In ("." ++ tag) language_extensions).
Proof.
  intros Hfs Hwf.
  assert (forall tag,
     In tag (languages_of (analyze_project_structure fs project_path max_depth)) <->
     exists e f, In e (files_of (analyze_project_structure fs project_path max_depth)) /\
                 e !! "name" = Some (VStr f) /\ language_tag f = Some tag) as Hiff.
  { intros tag. rewrite (files_of_analyze _ _ _ _ Hfs Hwf).
    rewrite (analyze_visited _ _ _ _ Hfs Hwf). cbn [languages_of finish s_languages].
    rewrite <- list_elem_of_In, elem_of_elements, add_file_languages.
    cbn [initial s_languages]. split.
    - intros [H | (v & Hv & Ht)]; [set_solver|].
      exists (entry_of (Path project_path) v), v.1.2.
      split; [by apply in_map | split; [apply entry_name_of | done]].
    - intros (e & f & He & Hn & Ht). right.
      apply in_map_iff in He as (v & <- & Hv). exists v. split; [done|].
      rewrite entry_name_of in Hn. congruence. }
  split; [|split; [exact Hiff|]].
  - rewrite (analyze_visited _ _ _ _ Hfs Hwf). cbn [languages_of finish s_languages].
    apply NoDup_elements.
  - intros tag (e & f & _ & _ & Ht)%Hiff. by apply language_tag_allowlisted in Ht.
Qed.

Lemma languages_exact_witness :
  NoDup (languages_of (analyze_project_structure unreadable_fs "proj" 3)) /\
  (forall tag,
     In tag (languages_of (analyze_project_structure unreadable_fs "proj" 3)) <->
     exists e f, In e (files_of (analyze_project_structure unreadable_fs "proj" 3)) /\
                 e !! "name" = Some (VStr f) /\ language_tag f = Some tag) /\
  (forall tag,
     In tag (languages_of (analyze_project_structure unreadable_fs "proj" 3)) ->
     In ("." ++ tag) language_extensions).
Proof.
  apply (languages_exact unreadable_fs "proj" 3 unreadable_tree).
  - reflexivity.
  - solve_wf.
Defined.

(** ** The two result shapes *)




(** ** The installation block *)

Lemma prefix_inv n s : String.prefix n s = true -> exists b, s = n ++ b.
Proof.
  revert s. induction n as [|x n IH]; intros s H; [by exists s|].
  destruct s as [|y s]; [discriminate|].
  change (String.prefix (String x n) (String y s)) with
    (if ascii_dec x y then String.prefix n s else false) in H.
  destruct (ascii_dec x y) as [<-|]; [|discriminate].
  destruct (IH _ H) as [b ->]. by exists b.
Qed.

Lemma str_in_inv n s : Py.str_in n s = true -> exists a b, s = a ++ n ++ b.
Proof.
  induction s as [|x s IH].
  - destruct n; [|discriminate]. intros _. by exists "", "".
  - rewrite str_in_cons. intros [H|H]%orb_true_iff.
    + apply prefix_inv in H as [b Hb]. by exists "", b.
    + destruct (IH H) as (a & b & ->). by exists (String x a), b.
Qed.

Lemma repr_body_app q a b :
  Py.repr_body q (a ++ b) = Py.repr_body q a ++ Py.repr_body q b.
Proof.
  induction a as [|x a IH]; [reflexivity|].
  simpl String.append. cbn [Py.repr_body]. by rewrite IH, append_assoc.
Qed.

Lemma str_in_repr n p : plain n -> Py.str_in n p = true -> Py.str_in n (Py.repr p) = true.
Proof.
  intros [H1 H2] (a & b & ->)%str_in_inv. unfold Py.repr.
  destruct (Py.str_in "'" (a ++ n ++ b) && negb (Py.str_in (String Py.dquote "") (a ++ n ++ b)));
    rewrite !repr_body_app, ?H1, ?H2.
  - change (String Py.dquote ((Py.repr_body Py.dquote a ++ n ++ Py.repr_body Py.dquote b)
                              ++ String Py.dquote ""))
      with (String Py.dquote "" ++ (Py.repr_body Py.dquote a ++ n ++ Py.repr_body Py.dquote b)
                              ++ String Py.dquote "").
    apply str_in_app_l, str_in_app_r, str_in_mid.
  - change (String "'" ((Py.repr_body "'" a ++ n ++ Py.repr_body "'" b) ++ String "'" ""))
      with (String "'" "" ++ (Py.repr_body "'" a ++ n ++ Py.repr_body "'" b) ++ String "'" "").
    apply str_in_app_l, str_in_app_r, str_in_mid.
Qed.

Lemma str_in_join n sep l x :
  In x l -> Py.str_in n x = true -> Py.str_in n (Py.join sep l) = true.
Proof.
  intros Hx Hn. induction l as [|y l IH]; [done|].
  destruct l as [|z l].
  - destruct Hx as [-> | []]. exact Hn.
  - rewrite join_cons2. destruct Hx as [-> | Hx].
    + by apply str_in_app_r.
    + apply str_in_app_l, str_in_app_l. by apply IH.
Qed.

Lemma str_in_str_dict n d k p :
  plain n -> In (k, p) d -> Py.str_in n p = true -> Py.str_in n (Py.str_dict d) = true.
Proof.
  intros Hn Hd Hp. unfold Py.str_dict.
  apply str_in_app_l, str_in_app_r.
  apply (str_in_join _ _ _ (Py.repr k ++ ": " ++ Py.repr p)).
  - apply in_map_iff. by exists (k, p).
  - apply str_in_app_l, str_in_app_l. by apply str_in_repr.
Qed.

Lemma dict_get_In k d p : dict_get k d = Some p -> In (k, p) d.
Proof.
  induction d as [|[k' v'] d IH]; [done|]. simpl.
  destruct (String.eqb_spec k k') as [->|]; [intros [= ->]; by left | right; by apply IH].
Qed.

(** C2, as stated, fails: with [package.json] listed before
    [Cargo.toml], the path recorded under [config] is that of
    [Cargo.toml] and the document has the [cargo build] block and no
    [npm install]; and a tree with no [config] entry at all, at a path
    that contains [package.json], gets the [npm install] block. *)
Lemma installation_block_counterexample :
  (key_files_of (analyze_project_structure two_configs_fs "proj" 3)
     = [("config", "proj/Cargo.toml")] /\
   installation_block (key_files_of (analyze_project_structure two_configs_fs "proj" 3))
     = cargo_block /\
   Py.str_in "cargo build" (default "" (generate_readme two_configs_fs "proj" None None)) = true /\
   Py.str_in "npm install" (default "" (generate_readme two_configs_fs "proj" None None)) = false) /\
  (key_files_of (analyze_project_structure readme_only_fs "package.json-parser" 3)
     = [("readme", "package.json-parser/README.md")] /\
   installation_block
     (key_files_of (analyze_project_structure readme_only_fs "package.json-parser" 3))
     = npm_block).
Proof. vm_compute. repeat split; reflexivity. Qed.

Lemma installation_block_recorded key_files category path :
  In (category, path) key_files -> Py.str_in "package.json" path = true ->
  installation_block key_files = npm_block.
Proof.
  intros Hin Hp. unfold installation_block.
  by rewrite (str_in_str_dict "package.json" key_files category path)
    by (done || (split; reflexivity)).
Qed.

(** ** The project structure listing *)

Section SortedFacts.
Context {A : Type} (key : A -> string).

Let le (a b : A) : Prop := String.le (key a) (key b).

Lemma insert_sorted_perm x l : Permutation (insert_sorted key x l) (x :: l).
Proof.
induction l as [|y l IH]; [reflexivity|]. simpl.
destruct (String.leb (key x) (key y)); [reflexivity|].
rewrite IH. apply perm_swap.
Qed.

Lemma sorted_perm l : Permutation (sorted key l) l.
Proof.
induction l as [|x l IH]; [reflexivity|]. simpl.
rewrite insert_sorted_perm. by constructor.
Qed.

Lemma insert_sorted_Sorted x l : Sorted le l -> Sorted le (insert_sorted key x l).
Proof.
induction 1 as [|y l Hl IH Hy]; [by repeat constructor|]. simpl.
destruct (String.leb (key x) (key y)) eqn:E.
- constructor; [by constructor|]. constructor. unfold le, String.le. by rewrite E.
- constructor; [exact IH|].
  assert (le y x) as Hyx.
  { unfold le. destruct (total String.le (key y) (key x)) as [H|H]; [done|].
    unfold String.le in H. rewrite E in H. done. }
  destruct l as [|z l]; simpl.
  + by constructor.
  + destruct (String.leb (key x) (key z)); constructor; [done|].
    by inversion Hy.
Qed.

Lemma sorted_Sorted l : Sorted le (sorted key l).
Proof.
induction l as [|x l IH]; [constructor|]. simpl. by apply insert_sorted_Sorted.
Qed.

Lemma sorted_StronglySorted l : StronglySorted le (sorted key l).
Proof.
apply Sorted_StronglySorted; [|apply sorted_Sorted].
intros a b c Hab Hbc. unfold le in *. by etrans.
Qed.
End SortedFacts.

Lemma StronglySorted_filter {A} (R : A -> A -> Prop) (P : A -> bool) l :
  StronglySorted R l -> StronglySorted R (List.filter P l).
Proof.
  induction 1 as [|x l Hl IH Hx]; [constructor|]. simpl.
  destruct (P x); [|exact IH]. constructor; [exact IH|].
  rewrite List.Forall_forall in *. intros y [Hy _]%filter_In. by apply Hx.
Qed.

Lemma filter_perm {A} (P : A -> bool) l l' :
  Permutation l l' -> Permutation (List.filter P l) (List.filter P l').
Proof.
  induction 1 as [|x l l' _ IH|x y l|l l' l'' _ IH1 _ IH2]; simpl.
  - reflexivity.
  - destruct (P x); [by constructor | done].
  - destruct (P x), (P y); try reflexivity. apply perm_swap.
  - by etrans.
Qed.

Lemma mapM_total {A B} (f : A -> option B) (g : A -> B) l :
  (forall x, In x l -> f x = Some (g x)) -> mapM f l = Some (map g l).
Proof.
  induction l as [|x l IH]; intros H; [reflexivity|].
  cbn [mapM map]. rewrite (H x) by (by left). cbn [mbind option_bind].
  rewrite IH by (intros y Hy; apply H; by right). reflexivity.
Qed.

Lemma concat_cons x l : String.concat "" (x :: l) = x ++ String.concat "" l.
Proof. destruct l; simpl; [by rewrite append_nil_r | reflexivity]. Qed.

Lemma concat_filter {A} (P : A -> bool) (h : A -> string) l :
  String.concat "" (map (fun e => if P e then h e else "") l)
  = String.concat "" (map h (List.filter P l)).
Proof.
  induction l as [|x l IH]; [reflexivity|].
  cbn [map List.filter]. destruct (P x).
  - cbn [map]. by rewrite !concat_cons, IH.
  - by rewrite concat_cons, IH.
Qed.

Lemma structure_line_of project_path v :
  Forall valid_name v.1.1 -> valid_name v.1.2 ->
  structure_line (Path_str (Path project_path)) (entry_of (Path project_path) v)
  = Some (if entry_is_file (entry_of (Path project_path) v)
          then listing_line project_path (entry_of (Path project_path) v) else "").
Proof.
  intros Hds Hf. unfold structure_line, listing_line.
  destruct (entry_is_file _); [|reflexivity].
  assert (Forall valid_name (v.1.1 ++ [v.1.2])) as Hall.
  { apply Forall_app. split; [done | by apply Forall_singleton]. }
  rewrite entry_rel_of, entry_path_of by done. cbn [mbind option_bind default].
  rewrite !Path_Path_str by (try apply wf_path_app; (apply wf_Path || done)).
  rewrite relative_to_app. cbn [mbind option_bind].
  unfold Path_str. cbn [p_root p_tail String.eqb].
  destruct (String.eqb_spec (Py.join "/" (v.1.1 ++ [v.1.2])) "") as [E|E]; [|reflexivity].
  apply join_nonempty in E; [done | done |]. by destruct v.1.1.
Qed.

(** C6, as stated, fails: an entry whose [is_file] is false (here a
    named pipe) is in [files] and is not listed in the section of the
    document. *)
Lemma structure_listing_counterexample :
  map (entry_str "path") (s_files (structure_of (scan_project pipe_fs "proj")))
    = ["proj/a.txt"; "proj/pipe"] /\
  project_structure_section (structure_of (scan_project pipe_fs "proj"))
    = Some ("## Project Structure" ++ nl ++ nl ++ "```" ++ nl ++
            "a.txt" ++ nl ++ "```" ++ nl ++ nl) /\
  Py.str_in "a.txt" (default "" (generate_readme pipe_fs "proj" None None)) = true /\
  Py.str_in "pipe" (default "" (generate_readme pipe_fs "proj" None None)) = false.
Proof. vm_compute. repeat split; reflexivity. Qed.

(** the listing of an analysis result, in closed form: no exception *)
Lemma section_of_analysis (fs : filesystem) project_path max_depth x s :
  fs (Path_str (Path project_path)) = Some x -> wf_node x ->
  analyze_project_structure fs project_path max_depth = Some (ProjectStructure s) ->
  project_structure_section s =
  Some (if Z.of_nat (length (s_files s)) <=? 20 then
          "## Project Structure" ++ nl ++ nl ++ "```" ++ nl ++
          String.concat "" (map (listing_line project_path)
                                (List.filter entry_is_file (sorted path_key (s_files s)))) ++
          "```" ++ nl ++ nl
        else "").
Proof.
  intros Hfs Hwf Ha. rewrite (analyze_visited _ _ _ _ Hfs Hwf) in Ha.
  injection Ha as <-. unfold project_structure_section.
  cbn [finish s_files s_root]. rewrite add_file_files, add_file_root.
  cbn [initial s_files s_root app].
  set (vs := visited max_depth [] x).
  assert (forall e, In e (map (entry_of (Path project_path)) vs) ->
            exists v, e = entry_of (Path project_path) v /\
                      Forall valid_name v.1.1 /\ valid_name v.1.2) as Hent.
  { intros e (v & <- & Hv)%in_map_iff.
    destruct (visited_sound _ _ _ _ Hwf Hv) as (rel & Hok).
    exists v. split; [done|]. by apply (visited_ok_valid _ _ _ _ Hok). }
  destruct (Z.of_nat (length (map (entry_of (Path project_path)) vs)) <=? 20); [|done].
  rewrite (mapM_total entry_path (fun e => path_key e)).
  2:{ intros e (v & -> & _)%Hent. unfold path_key. by rewrite entry_path_of. }
  cbn [mbind option_bind].
  rewrite (mapM_total _ (fun e => if entry_is_file e
                                  then listing_line project_path e else "")).
  2:{ intros e He. apply (Permutation_in _ (sorted_perm path_key _)) in He.
      apply Hent in He as (v & -> & Hds & Hf). by apply structure_line_of. }
  cbn [mbind option_bind]. by rewrite concat_filter.
Qed.

(** on an existing root neither the analysis nor the listing raises *)
Lemma generate_readme_returns (fs : filesystem) project_path x :
  fs (Path_str (Path project_path)) = Some x -> wf_node x ->
  exists s section,
    analyze_project_structure fs project_path 3 = Some (ProjectStructure s) /\
    project_structure_section s = Some section.
Proof.
  intros Hfs Hwf. eexists. eexists. split.
  - apply (analyze_visited _ _ _ _ Hfs Hwf).
  - apply (section_of_analysis fs project_path 3 x); [done | done |].
    apply (analyze_visited _ _ _ _ Hfs Hwf).
Qed.

(** the document of an existing root, part by part *)
Lemma generate_readme_layout (fs : filesystem) project_path project_name description s section :
  analyze_project_structure fs project_path 3 = Some (ProjectStructure s) ->
  project_structure_section s = Some section ->
  generate_readme fs project_path project_name description =
  Some (title project_path project_name ++ description_text description ++
        technologies_text (s_languages s) ++
        "## Installation" ++ nl ++ nl ++ installation_block (s_key_files s) ++
        usage_text ++ section ++ contributing_text ++ license_part (s_key_files s)).
Proof.
  intros Ha Hsec. unfold generate_readme. rewrite Ha.
  generalize (title project_path project_name). intros t.
  change (Some (ProjectStructure s) ≫= _) with
    (let readme_content := t in
     let readme_content :=
        if truthy description then readme_content ++ default "" description ++ nl ++ nl
        else readme_content ++ "A brief description of your project." ++ nl ++ nl in
     let readme_content :=
        if negb (Nat.eqb (length (s_languages s)) 0) then
          readme_content ++ "## Technologies Used" ++ nl ++ nl ++
          String.concat "" (map (fun lang => "- " ++ Py.upper lang ++ nl)
                                (sorted id (s_languages s))) ++ nl
        else readme_content in
     let readme_content := readme_content ++ "## Installation" ++ nl ++ nl in
     let readme_content := readme_content ++ installation_block (s_key_files s) in
     let readme_content := readme_content ++ "## Usage" ++ nl ++ nl in
     let readme_content :=
        readme_content ++ "Describe how to use your project here." ++ nl ++ nl in
     project_structure_section s ≫= fun section =>
     let readme_content := readme_content ++ section in
     let readme_content := readme_content ++ contributing_text in
     let readme_content :=
        if bool_decide (is_Some (dict_get "license" (s_key_files s))) then
          readme_content ++ license_text
        else readme_content in
     Some readme_content).
  cbv zeta. rewrite Hsec.
  change (Some section ≫= ?f) with (f section). cbv beta.
  unfold description_text, technologies_text, license_part.
  generalize (installation_block (s_key_files s)). intros block.
  generalize (String.concat "" (map (fun lang => "- " ++ Py.upper lang ++ nl)
                                    (sorted id (s_languages s)))). intros bullets.
  generalize (default "" description). intros text.
  f_equal.
  destruct (truthy description), (negb _), (bool_decide _);
    rewrite ?append_assoc, ?append_nil_r; reflexivity.
Qed.

(** C6, amended: in the document of an existing root the Project
    Structure section stands between the Usage and the Contributing
    sections exactly when [files] has at most 20 entries; it then lists
    the entries whose [is_file] is not false (regular files and entries
    of failed probes), each as its path relative to the root, in the
    code-point order of the full paths. *)
Theorem project_structure_listing (fs : filesystem) project_path project_name description x :
  fs (Path_str (Path project_path)) = Some x -> wf_node x ->
  exists s listed,
    analyze_project_structure fs project_path 3 = Some (ProjectStructure s) /\
    Permutation listed (List.filter entry_is_file (s_files s)) /\
    StronglySorted path_le listed /\
    generate_readme fs project_path project_name description =
      Some (title project_path project_name ++ description_text description ++
            technologies_text (s_languages s) ++
            "## Installation" ++ nl ++ nl ++ installation_block (s_key_files s) ++
            usage_text ++
            (if Z.of_nat (length (s_files s)) <=? 20
             then structure_text (map (listing_line project_path) listed) else "") ++
            contributing_text ++ license_part (s_key_files s)).
Proof.
  intros Hfs Hwf.
  destruct (generate_readme_returns fs project_path x Hfs Hwf) as (s & section & Ha & Hsec).
  exists s, (List.filter entry_is_file (sorted path_key (s_files s))).
  split; [exact Ha|]. split; [apply filter_perm, sorted_perm|].
  split; [apply StronglySorted_filter, sorted_StronglySorted|].
  rewrite (generate_readme_layout fs project_path project_name description s section Ha Hsec).
  rewrite (section_of_analysis _ _ _ _ _ Hfs Hwf Ha) in Hsec. injection Hsec as <-.
  reflexivity.
Qed.

Lemma project_structure_listing_witness :
  exists s listed,
    analyze_project_structure pipe_fs "proj" 3 = Some (ProjectStructure s) /\
    Permutation listed (List.filter entry_is_file (s_files s)) /\
    StronglySorted path_le listed /\
    generate_readme pipe_fs "proj" None None =
      Some (title "proj" None ++ description_text None ++
            technologies_text (s_languages s) ++
            "## Installation" ++ nl ++ nl ++ installation_block (s_key_files s) ++
            usage_text ++
            (if Z.of_nat (length (s_files s)) <=? 20
             then structure_text (map (listing_line "proj") listed) else "") ++
            contributing_text ++ license_part (s_key_files s)).
Proof.
  apply (project_structure_listing pipe_fs "proj" None None pipe_tree);
    [reflexivity | solve_wf].
Defined.

(** C2, amended: in the document of an existing root the text between
    the Installation heading and the Usage section is chosen by
    substring tests on the text of the whole key-files mapping, in the
    fixed order [package.json], [requirements.txt], [Cargo.toml],
    placeholder, and only the first test that holds counts; so when a
    recorded path, of the [config] category or of any other, contains
    [package.json], the document has the [npm install] block there and
    not the [cargo build] block. *)
Theorem installation_block_priority (fs : filesystem) project_path project_name description x :
  fs (Path_str (Path project_path)) = Some x -> wf_node x ->
  exists s section block,
    analyze_project_structure fs project_path 3 = Some (ProjectStructure s) /\
    project_structure_section s = Some section /\
    generate_readme fs project_path project_name description =
      Some (title project_path project_name ++ description_text description ++
            technologies_text (s_languages s) ++
            "## Installation" ++ nl ++ nl ++ block ++
            usage_text ++ section ++ contributing_text ++ license_part (s_key_files s)) /\
    block =
      (if Py.str_in "package.json" (Py.str_dict (s_key_files s)) then npm_block
       else if Py.str_in "requirements.txt" (Py.str_dict (s_key_files s)) then pip_block
       else if Py.str_in "Cargo.toml" (Py.str_dict (s_key_files s)) then cargo_block
       else placeholder_block) /\
    (forall category path,
       In (category, path) (s_key_files s) -> Py.str_in "package.json" path = true ->
       block = npm_block /\ block <> cargo_block).
Proof.
  intros Hfs Hwf.
  destruct (generate_readme_returns fs project_path x Hfs Hwf) as (s & section & Ha & Hsec).
  exists s, section, (installation_block (s_key_files s)).
  split; [exact Ha|]. split; [exact Hsec|].
  split; [by apply generate_readme_layout|]. split; [reflexivity|].
  intros category path Hin Hp.
  rewrite (installation_block_recorded _ _ _ Hin Hp). split; [reflexivity | discriminate].
Qed.

Lemma installation_block_priority_witness :
  exists s section block,
    analyze_project_structure sample_fs "proj" 3 = Some (ProjectStructure s) /\
    project_structure_section s = Some section /\
    generate_readme sample_fs "proj" None None =
      Some (title "proj" None ++ description_text None ++
            technologies_text (s_languages s) ++
            "## Installation" ++ nl ++ nl ++ block ++
            usage_text ++ section ++ contributing_text ++ license_part (s_key_files s)) /\
    block =
      (if Py.str_in "package.json" (Py.str_dict (s_key_files s)) then npm_block
       else if Py.str_in "requirements.txt" (Py.str_dict (s_key_files s)) then pip_block
       else if Py.str_in "Cargo.toml" (Py.str_dict (s_key_files s)) then cargo_block
       else placeholder_block) /\
    (forall category path,
       In (category, path) (s_key_files s) -> Py.str_in "package.json" path = true ->
       block = npm_block /\ block <> cargo_block).
Proof.
  apply (installation_block_priority sample_fs "proj" None None sample_tree);
    [reflexivity | solve_wf].
Defined.

(** ** The title *)

(** C9: an empty [project_name] gives the same document as an absent
    one; on an existing root the document starts with [# ], the last
    segment of [project_path], and a blank line; for [.] that segment is
    empty. *)
Theorem empty_project_name_is_absent (fs : filesystem) project_path description :
  generate_readme fs project_path (Some "") description
    = generate_readme fs project_path None description /\
  (forall x,
     fs (Path_str (Path project_path)) = Some x -> wf_node x ->
     exists readme,
       generate_readme fs project_path (Some "") description = Some readme /\
       String.prefix ("# " ++ name (Path project_path) ++ nl ++ nl) readme = true) /\
  name (Path ".") = "".
Proof.
  split; [reflexivity|]. split; [|reflexivity].
  intros x Hfs Hwf.
  destruct (generate_readme_returns fs project_path x Hfs Hwf)
    as (s & section & Ha & Hsec).
  change ("# " ++ name (Path project_path) ++ nl ++ nl) with (title project_path (Some "")).
  unfold generate_readme. rewrite Ha.
  generalize (title project_path (Some "")). intros t.
  cbn [mbind option_bind]. rewrite Hsec. cbn [mbind option_bind].
  eexists. split; [reflexivity|].
  assert (String.prefix t t = true) as Ht.
  { rewrite <- (append_nil_r t) at 2. apply prefix_app_r. }
  destruct (truthy description), (negb _), (bool_decide _);
    repeat (apply prefix_weaken); exact Ht.
Qed.

Lemma empty_project_name_is_absent_witness :
  exists readme,
    generate_readme sample_fs "proj" (Some "") None = Some readme /\
    String.prefix ("# " ++ name (Path "proj") ++ nl ++ nl) readme = true.
Proof.
  apply (proj1 (proj2 (empty_project_name_is_absent sample_fs "proj" None)) sample_tree).
  - reflexivity.
  - solve_wf.
Defined.


(** * Further properties *)

Ltac in_list := cbn; repeat (first [left; reflexivity | right]).

(** ** The ignore list *)

Lemma ends_with_spec suf s : ends_with suf s = true <-> exists a, s = a ++ suf.
Proof.
  induction s as [|x s IH].
  - cbn [ends_with]. rewrite orb_false_r. split.
    + intros ->%String.eqb_eq. by exists "".
    + intros [a Ha]. destruct a as [|y a]; [|discriminate].
      simpl in Ha. subst. apply String.eqb_refl.
  - cbn [ends_with]. rewrite orb_true_iff, IH. split.
    + intros [->%String.eqb_eq | [a ->]]; [by exists "" | by exists (String x a)].
    + intros [[|y a] Ha].
      * left. simpl in Ha. subst. apply String.eqb_refl.
      * right. simpl in Ha. injection Ha as -> ->. by exists a.
Qed.

Lemma fnmatch_pat_plain c pat n :
  is_wild c = false ->
  fnmatch_pat (String c pat) n =
  match n with
  | EmptyString => false
  | String d n' => Ascii.eqb c d && fnmatch_pat pat n'
  end.
Proof.
  destruct c as [[] [] [] [] [] [] [] []]; intros H;
    try (vm_compute in H; discriminate H); reflexivity.
Qed.

Lemma fnmatch_literal pat n : literal pat = true -> fnmatch_pat pat n = String.eqb pat n.
Proof.
  revert n. induction pat as [|c pat IH]; intros n H.
  - cbn [fnmatch_pat]. apply String.eqb_sym.
  - cbn [literal] in H. apply andb_true_iff in H as [Hc Hl]. apply negb_true_iff in Hc.
    rewrite (fnmatch_pat_plain _ _ _ Hc). destruct n as [|d n]; [reflexivity|].
    rewrite IH by done. reflexivity.
Qed.

Lemma fnmatch_star_literal pat n :
  literal pat = true -> fnmatch_pat (String "*" pat) n = ends_with pat n.
Proof.
  intros H. induction n as [|d n IH].
  - change (fnmatch_pat (String "*" pat) "") with (fnmatch_pat pat "" || false).
    cbn [ends_with]. by rewrite fnmatch_literal.
  - change (fnmatch_pat (String "*" pat) (String d n)) with
      (fnmatch_pat pat (String d n) || fnmatch_pat (String "*" pat) n).
    cbn [ends_with]. by rewrite IH, fnmatch_literal.
Qed.

(** X1: [should_ignore] holds exactly when the base name of the path is
    one of the eleven literal names of the list or ends with one of its
    six suffixes. *)
Theorem should_ignore_characterised path :
  should_ignore path = true <->
  In (os_path_basename path) ignored_names \/
  exists suf a, In suf ignored_suffixes /\ os_path_basename path = a ++ suf.
Proof.
  unfold should_ignore. generalize (os_path_basename path). intros n.
  rewrite existsb_exists. split.
  - intros (pat & Hin & Hm). unfold fnmatch in Hm. unfold IGNORE_PATTERNS in Hin.
    cbn [In] in Hin.
    repeat (destruct Hin as [<- | Hin];
      [ first
          [ rewrite fnmatch_star_literal in Hm by reflexivity;
            apply ends_with_spec in Hm as [a Ha];
            right; eexists _, a; split; [|exact Ha]; in_list
          | rewrite fnmatch_literal in Hm by reflexivity;
            apply String.eqb_eq in Hm; left; rewrite <- Hm; in_list ] | ]).
    destruct Hin.
  - intros [Hin | (suf & a & Hin & ->)].
    + exists n. unfold ignored_names in Hin. cbn [In] in Hin.
      repeat (destruct Hin as [<- | Hin]; [split; [in_list | reflexivity] | ]).
      destruct Hin.
    + unfold ignored_suffixes in Hin. cbn [In] in Hin.
      repeat (destruct Hin as [Hs | Hin];
        [ exists (String "*" suf); subst suf; split;
          [ in_list
          | unfold fnmatch; rewrite fnmatch_star_literal by reflexivity;
            apply ends_with_spec; by exists a ] | ]).
      destruct Hin.
Qed.

(** ** Which files are returned *)

(** X2: the entries of [files] are exactly the entries of the files that
    lie under at most [max_depth] nested directories, all of them listed
    and with names that are not ignored, and whose own name is not
    ignored. *)
Theorem files_exact (fs : filesystem) project_path max_depth x e :
  fs (Path_str (Path project_path)) = Some x -> wf_node x ->
  (In e (files_of (analyze_project_structure fs project_path max_depth)) <->
   exists rel f st,
     file_at x rel f st /\
     Forall (fun d => ignored_name d = false) rel /\ ignored_name f = false /\
     Z.of_nat (length rel) <= max_depth /\
     e = get_file_info (path_app (Path project_path) (rel ++ [f])) st).
Proof.
  intros Hfs Hwf. rewrite (files_of_analyze _ _ _ _ Hfs Hwf). split.
  - intros (v & <- & Hv)%in_map_iff.
    destruct (visited_sound _ _ _ _ Hwf Hv) as (rel & [H1 H2 H3 H4 H5 H6 H7]).
    simpl in H1. subst rel. exists v.1.1, v.1.2, v.2. repeat split; try done.
  - intros (rel & f & st & Hat & Hrel & Hf & Hlen & ->).
    apply in_map_iff. exists (rel, f, st). split; [reflexivity|].
    by apply (visited_complete max_depth x rel f st Hat []).
Qed.

Lemma files_exact_witness :
  In (get_file_info (path_app (Path "proj") ([] ++ ["README.md"]))
        (inl {| st_size := 10; st_is_file := true |}))
     (files_of (analyze_project_structure sample_fs "proj" 3)).
Proof.
  apply (files_exact sample_fs "proj" 3 sample_tree); [reflexivity | solve_wf |].
  exists [], "README.md", (inl {| st_size := 10; st_is_file := true |}).
  split; [|split; [|split; [|split]]].
  - apply file_here. in_list.
  - constructor.
  - reflexivity.
  - simpl. lia.
  - reflexivity.
Defined.

(** X3: raising the depth bound never removes an entry. *)
Theorem files_monotone (fs : filesystem) project_path max_depth max_depth' x e :
  fs (Path_str (Path project_path)) = Some x -> wf_node x ->
  max_depth <= max_depth' ->
  In e (files_of (analyze_project_structure fs project_path max_depth)) ->
  In e (files_of (analyze_project_structure fs project_path max_depth')).
Proof.
  intros Hfs Hwf Hle. rewrite !(files_of_analyze _ _ _ _ Hfs Hwf).
  intros (v & <- & Hv)%in_map_iff. apply in_map.
  destruct (visited_sound _ _ _ _ Hwf Hv) as (rel & [H1 H2 H3 H4 H5 H6 H7]).
  simpl in H1. destruct v as [[ds f] st]. cbn [fst snd] in *. subst ds.
  apply (visited_complete max_depth' x rel f st H2 []); try done. simpl. lia.
Qed.

Lemma files_monotone_witness :
  In (nth 0 (files_of (analyze_project_structure depth_fs "proj" 1)) ∅)
     (files_of (analyze_project_structure depth_fs "proj" 2)).
Proof.
  apply (files_monotone depth_fs "proj" 1 2 depth_tree).
  - reflexivity.
  - solve_wf.
  - lia.
  - vm_compute. left. reflexivity.
Defined.

Lemma add_file_directories pr vs s :
  s_directories (fold_left (add_file pr) vs s) = s_directories s /\
  s_framework_indicators (fold_left (add_file pr) vs s) = s_framework_indicators s.
Proof.
  revert s. induction vs as [|[[ds f] st] vs IH]; intros s; [done|].
  cbn [fold_left]. destruct (IH (add_file pr s (ds, f, st))) as [-> ->]. done.
Qed.

(** X4: with a negative depth bound an existing root gives a structure
    with no file, no key file and no language. *)
Theorem negative_depth_is_empty (fs : filesystem) project_path max_depth x :
  fs (Path_str (Path project_path)) = Some x -> wf_node x -> max_depth < 0 ->
  exists s,
    analyze_project_structure fs project_path max_depth = Some (ProjectStructure s) /\
    s_files s = [] /\ s_key_files s = [] /\ s_languages s = [].
Proof.
  intros Hfs Hwf Hneg. rewrite (analyze_visited _ _ _ _ Hfs Hwf).
  rewrite visited_deep by (simpl; lia).
  eexists. split; [reflexivity|]. cbn [fold_left finish initial s_files s_key_files s_languages].
  repeat split; try done; apply elements_empty.
Qed.

Lemma negative_depth_is_empty_witness :
  exists s,
    analyze_project_structure sample_fs "proj" (-1) = Some (ProjectStructure s) /\
    s_files s = [] /\ s_key_files s = [] /\ s_languages s = [].
Proof.
  apply (negative_depth_is_empty sample_fs "proj" (-1) sample_tree);
    [reflexivity | solve_wf | lia].
Defined.

(** X5: on an existing root the analysis does not depend on how the
    path is spelt: the path as [pathlib] prints it gives the same
    result. *)
Theorem analysis_of_normalised_root (fs : filesystem) project_path max_depth :
  is_Some (fs (Path_str (Path project_path))) ->
  analyze_project_structure fs (Path_str (Path project_path)) max_depth
  = analyze_project_structure fs project_path max_depth.
Proof.
  intros [x Hx]. unfold analyze_project_structure, Path_exists. cbv zeta.
  rewrite !(Path_Path_str (Path project_path)) by apply wf_Path.
  by rewrite Hx.
Qed.

Lemma analysis_of_normalised_root_witness :
  analyze_project_structure sample_fs (Path_str (Path ".//proj/./")) 3
  = analyze_project_structure sample_fs ".//proj/./" 3.
Proof.
  apply (analysis_of_normalised_root sample_fs ".//proj/./" 3).
  vm_compute. eauto.
Defined.

(** X6: in every structure returned, [root] is the path as [pathlib]
    prints it, and [directories] and [framework_indicators] are empty:
    the walk never fills them. *)
Theorem structure_fixed_fields (fs : filesystem) project_path max_depth x :
  fs (Path_str (Path project_path)) = Some x -> wf_node x ->
  exists s,
    analyze_project_structure fs project_path max_depth = Some (ProjectStructure s) /\
    s_root s = Path_str (Path project_path) /\
    s_directories s = [] /\ s_framework_indicators s = [].
Proof.
  intros Hfs Hwf. rewrite (analyze_visited _ _ _ _ Hfs Hwf).
  eexists. split; [reflexivity|]. cbn [finish s_root s_directories s_framework_indicators].
  rewrite add_file_root.
  destruct (add_file_directories (Path project_path) (visited max_depth [] x)
              (initial (Path project_path))) as [-> ->].
  done.
Qed.

Lemma structure_fixed_fields_witness :
  exists s,
    analyze_project_structure sample_fs "./proj/" 3 = Some (ProjectStructure s) /\
    s_root s = Path_str (Path "./proj/") /\
    s_directories s = [] /\ s_framework_indicators s = [].
Proof.
  apply (structure_fixed_fields sample_fs "./proj/" 3 sample_tree); [reflexivity | solve_wf].
Defined.

(** X7: in every entry, failed probes included, [name] is the last
    component of [path], as [os.path.basename] and as [pathlib] see it. *)
Theorem entry_name_is_basename (fs : filesystem) project_path max_depth x e :
  fs (Path_str (Path project_path)) = Some x -> wf_node x ->
  In e (files_of (analyze_project_structure fs project_path max_depth)) ->
  exists n p,
    e !! "name" = Some (VStr n) /\ e !! "path" = Some (VStr p) /\
    os_path_basename p = n /\ name (Path p) = n.
Proof.
  intros Hfs Hwf. rewrite (files_of_analyze _ _ _ _ Hfs Hwf).
  intros (v & <- & Hv)%in_map_iff.
  destruct (visited_sound _ _ _ _ Hwf Hv) as (rel & Hok).
  destruct (visited_ok_valid _ _ _ _ Hok) as [Hds Hf].
  assert (wf_path (path_app (Path project_path) v.1.1)) as Hp
    by (apply wf_path_app; [apply wf_Path | done]).
  exists v.1.2, (Path_str (path_app (Path project_path) (v.1.1 ++ [v.1.2]))).
  split; [apply entry_name_of|]. split; [apply get_file_info_path|].
  rewrite <- path_app_snoc. split.
  - destruct (Path_str_snoc _ _ Hp Hf) as (X & -> & HX).
    apply basename_app; [apply Hf | done].
  - rewrite Path_Path_str; [apply name_snoc|].
    rewrite path_app_snoc. apply wf_path_app; [apply wf_Path|].
    apply Forall_app. split; [done | by apply Forall_singleton].
Qed.

Lemma entry_name_is_basename_witness :
  exists n p,
    nth 4 (files_of (scan_project sample_fs "proj")) ∅ !! "name" = Some (VStr n) /\
    nth 4 (files_of (scan_project sample_fs "proj")) ∅ !! "path" = Some (VStr p) /\
    os_path_basename p = n /\ name (Path p) = n.
Proof.
  apply (entry_name_is_basename sample_fs "proj" 3 sample_tree).
  - reflexivity.
  - solve_wf.
  - vm_compute. do 4 right. left. reflexivity.
Defined.

(** ** Key files *)

Lemma dict_get_set k k' v d :
  dict_get k (dict_set k' v d) = if String.eqb k' k then Some v else dict_get k d.
Proof.
  induction d as [|[k1 v1] d IH]; cbn [dict_set dict_get].
  - rewrite (String.eqb_sym k k'). reflexivity.
  - destruct (String.eqb_spec k' k1) as [->|Hne]; cbn [dict_get].
    + rewrite (String.eqb_sym k k1). by destruct (String.eqb k1 k).
    + rewrite IH. destruct (String.eqb_spec k k1) as [->|]; [|reflexivity].
      apply String.eqb_neq in Hne. by rewrite Hne.
Qed.

Lemma patterns_fold file v cat patterns kf c :
  dict_get c
    (fold_left (fun kf pattern =>
       if String.eqb (Py.lower file) (Py.lower pattern) || String.eqb file pattern
       then dict_set cat v kf else kf) patterns kf)
  = if String.eqb cat c && existsb (matches_pattern file) patterns
    then Some v else dict_get c kf.
Proof.
  revert kf. induction patterns as [|pat ps IH]; intros kf; cbn [fold_left existsb].
  - by rewrite andb_false_r.
  - rewrite IH. fold (matches_pattern file pat).
    destruct (matches_pattern file pat); cbn [orb].
    + rewrite dict_get_set, andb_true_r.
      destruct (String.eqb cat c); [|reflexivity]. by destruct (existsb _ ps).
    + reflexivity.
Qed.

Lemma categories_fold file v l kf c :
  dict_get c
    (fold_left (fun kf cp =>
       let '(category, patterns) := cp in
       fold_left (fun kf pattern =>
         if String.eqb (Py.lower file) (Py.lower pattern) || String.eqb file pattern
         then dict_set category v kf else kf) patterns kf) l kf)
  = if existsb (fun cp => String.eqb (fst cp) c && existsb (matches_pattern file) (snd cp)) l
    then Some v else dict_get c kf.
Proof.
  revert kf. induction l as [|[cat ps] l IH]; intros kf; cbn [fold_left existsb fst snd].
  - reflexivity.
  - rewrite IH, patterns_fold.
    destruct (String.eqb cat c && existsb (matches_pattern file) ps); cbn [orb].
    + by destruct (existsb _ l).
    + reflexivity.
Qed.

(** one file: a category whose test the name passes gets the path of the
    file, the other categories keep what they had *)
Lemma check_key_files_get file file_path kf c :
  dict_get c (check_key_files file file_path kf)
  = if matches_category file c then Some (Path_str file_path) else dict_get c kf.
Proof. apply categories_fold. Qed.

Lemma name_and_path_of pr v :
  name_and_path (entry_of pr v) = (v.1.2, Path_str (path_app pr (v.1.1 ++ [v.1.2]))).
Proof.
  unfold name_and_path, entry_str. rewrite entry_name_of.
  unfold entry_of. by rewrite get_file_info_path.
Qed.

Lemma key_files_fold pr vs s c :
  dict_get c (s_key_files (fold_left (add_file pr) vs s)) =
  match last_matching c (map name_and_path (map (entry_of pr) vs)) with
  | Some p => Some p
  | None => dict_get c (s_key_files s)
  end.
Proof.
  revert s. induction vs as [|[[ds f] st] vs IH]; intros s; [reflexivity|].
  cbn [fold_left map]. rewrite IH, name_and_path_of. cbn [last_matching fst snd].
  destruct (last_matching c _); [reflexivity|].
  cbn [add_file s_key_files]. rewrite check_key_files_get.
  by destruct (matches_category f c).
Qed.

Lemma last_matching_Some c l p :
  last_matching c l = Some p ->
  exists file, In (file, p) l /\ matches_category file c = true.
Proof.
  induction l as [|[file path] l IH]; [done|]. cbn [last_matching].
  destruct (last_matching c l) as [q|] eqn:E.
  - intros [= <-]. destruct (IH eq_refl) as (g & Hg & Hm). exists g. split; [by right | done].
  - destruct (matches_category file c) eqn:Em; [|done].
    intros [= <-]. exists file. split; [by left | done].
Qed.

Lemma last_matching_None c l :
  last_matching c l = None ->
  forall file path, In (file, path) l -> matches_category file c = false.
Proof.
  induction l as [|[file path] l IH]; [done|]. cbn [last_matching].
  destruct (last_matching c l) as [q|] eqn:E; [done|].
  destruct (matches_category file c) eqn:Em; [done|].
  intros _ g q [[= <- <-] | Hg]; [done | by apply (IH eq_refl g q)].
Qed.

Lemma key_files_last_wins_lemma (fs : filesystem) project_path max_depth x category :
  fs (Path_str (Path project_path)) = Some x -> wf_node x ->
  dict_get category (key_files_of (analyze_project_structure fs project_path max_depth))
  = last_matching category
      (map name_and_path (files_of (analyze_project_structure fs project_path max_depth))).
Proof.
  intros Hfs Hwf. rewrite (files_of_analyze _ _ _ _ Hfs Hwf).
  rewrite (analyze_visited _ _ _ _ Hfs Hwf). cbn [key_files_of finish s_key_files].
  rewrite key_files_fold. by destruct (last_matching category _).
Qed.

Lemma last_matching_is_Some c l :
  is_Some (last_matching c l) <->
  exists file path, In (file, path) l /\ matches_category file c = true.
Proof.
  split.
  - intros [p (file & Hf & Hm)%last_matching_Some]. by exists file, p.
  - intros (file & path & Hf & Hm).
    destruct (last_matching c l) as [p|] eqn:E; [by eexists|].
    rewrite (last_matching_None _ _ E _ _ Hf) in Hm. done.
Qed.

(** X8: the path recorded for a category is the path of the last entry
    of [files], in the order of the walk, whose name passes the test of
    line 92 for a pattern of that category; the category has a key
    exactly when some entry passes that test. *)
Theorem key_files_last_wins (fs : filesystem) project_path max_depth x category :
  fs (Path_str (Path project_path)) = Some x -> wf_node x ->
  dict_get category (key_files_of (analyze_project_structure fs project_path max_depth))
  = last_matching category
      (map name_and_path (files_of (analyze_project_structure fs project_path max_depth))) /\
  (is_Some (dict_get category
              (key_files_of (analyze_project_structure fs project_path max_depth))) <->
   exists e, In e (files_of (analyze_project_structure fs project_path max_depth)) /\
             matches_category (entry_str "name" e) category = true).
Proof.
  intros Hfs Hwf.
  rewrite (key_files_last_wins_lemma fs project_path max_depth x category Hfs Hwf).
  split; [reflexivity|]. rewrite last_matching_is_Some. split.
  - intros (file & path & (e & [= <- <-] & He)%in_map_iff & Hm). by exists e.
  - intros (e & He & Hm). exists (entry_str "name" e), (entry_str "path" e).
    split; [|done]. apply in_map_iff. by exists e.
Qed.

Lemma key_files_last_wins_witness :
  dict_get "license" (key_files_of (analyze_project_structure licensed_fs "proj" 3))
  = last_matching "license"
      (map name_and_path (files_of (analyze_project_structure licensed_fs "proj" 3))).
Proof.
  apply (key_files_last_wins licensed_fs "proj" 3 licensed_tree); [reflexivity | solve_wf].
Defined.

Example licensed_key_files :
  key_files_of (analyze_project_structure licensed_fs "proj" 3)
  = [("license", "proj/docs/LICENSE"); ("readme", "proj/docs/README.rst")].
Proof. vm_compute. reflexivity. Qed.

Lemma dict_set_keys k v d :
  map fst (dict_set k v d)
  = if str_mem k (map fst d) then map fst d else (map fst d ++ [k])%list.
Proof.
  induction d as [|[k1 v1] d IH]; [reflexivity|].
  cbn [dict_set map fst]. change (str_mem k (k1 :: map fst d))
    with (String.eqb k k1 || str_mem k (map fst d)).
  destruct (String.eqb_spec k k1) as [->|Hne]; cbn [map fst orb]; [reflexivity|].
  rewrite IH. by destruct (str_mem k (map fst d)).
Qed.

Lemma dict_set_keys_ok k v d : In k categories -> keys_ok d -> keys_ok (dict_set k v d).
Proof.
  intros Hk [Hnd Hin]. unfold keys_ok. rewrite dict_set_keys.
  destruct (str_mem k (map fst d)) eqn:E; [done|]. split.
  - apply NoDup_app. split; [done|]. split; [|apply NoDup_singleton].
    intros y Hy ->%list_elem_of_singleton. apply list_elem_of_In, str_mem_In in Hy. congruence.
  - intros y [Hy | [<- | []]]%in_app_iff; [by apply Hin | done].
Qed.

Lemma check_key_files_keys_ok file file_path kf :
  keys_ok kf -> keys_ok (check_key_files file file_path kf).
Proof.
  unfold check_key_files.
  assert (forall cp, In cp key_files_patterns -> In (fst cp) categories) as Hcat
    by (intros cp Hcp; by apply in_map).
  revert kf Hcat. generalize key_files_patterns.
  induction l as [|[cat ps] l IH]; intros kf Hcat Hok; [done|].
  cbn [fold_left]. apply IH; [intros cp Hcp; apply Hcat; by right|].
  assert (In cat categories) as Hc by (apply (Hcat (cat, ps)); by left).
  clear IH Hcat. revert kf Hok. induction ps as [|pat ps IH]; intros kf Hok; [done|].
  cbn [fold_left]. apply IH. destruct (_ || _); [by apply dict_set_keys_ok | done].
Qed.

Lemma add_file_keys_ok pr vs s :
  keys_ok (s_key_files s) -> keys_ok (s_key_files (fold_left (add_file pr) vs s)).
Proof.
  revert s. induction vs as [|[[ds f] st] vs IH]; intros s Hok; [done|].
  cbn [fold_left]. apply IH. cbn [add_file s_key_files]. by apply check_key_files_keys_ok.
Qed.

(** X9: the keys of [key_files] are pairwise distinct and each is one of
    the six categories; a recorded path is the path of an entry of
    [files] whose name passes the test for that category. *)
Theorem key_files_keys (fs : filesystem) project_path max_depth x :
  fs (Path_str (Path project_path)) = Some x -> wf_node x ->
  NoDup (map fst (key_files_of (analyze_project_structure fs project_path max_depth))) /\
  (forall category path,
     In (category, path) (key_files_of (analyze_project_structure fs project_path max_depth)) ->
     In category ["readme"; "license"; "config"; "docker"; "ci"; "env"] /\
     exists e, In e (files_of (analyze_project_structure fs project_path max_depth)) /\
               e !! "path" = Some (VStr path) /\
               matches_category (entry_str "name" e) category = true).
Proof.
  intros Hfs Hwf.
  assert (keys_ok (key_files_of (analyze_project_structure fs project_path max_depth)))
    as [Hnd Hin].
  { rewrite (analyze_visited _ _ _ _ Hfs Hwf). cbn [key_files_of finish s_key_files].
    apply add_file_keys_ok. split; [constructor | intros k []]. }
  split; [exact Hnd|]. intros category path Hcp. split.
  - apply (Hin category). apply in_map_iff. by exists (category, path).
  - assert (dict_get category
              (key_files_of (analyze_project_structure fs project_path max_depth)) = Some path)
      as Hget.
    { revert Hnd Hcp.
      generalize (key_files_of (analyze_project_structure fs project_path max_depth)).
      induction l as [|[k v] l IH]; [done|]. cbn [map fst dict_get].
      intros [Hk Hl]%NoDup_cons [[= -> ->] | Hcp].
      - by rewrite String.eqb_refl.
      - destruct (String.eqb_spec category k) as [->|]; [|by apply IH].
        exfalso. apply Hk, list_elem_of_In, in_map_iff. by exists (k, path). }
    rewrite (key_files_last_wins_lemma fs project_path max_depth x category Hfs Hwf) in Hget.
    apply last_matching_Some in Hget as (file & Hf & Hm).
    apply in_map_iff in Hf as (e & [= <- <-] & He).
    exists e. split; [done|]. split; [|done].
    rewrite (files_of_analyze _ _ _ _ Hfs Hwf) in He.
    apply in_map_iff in He as (v & <- & _).
    unfold entry_str, entry_of. by rewrite !get_file_info_path.
Qed.

Lemma key_files_keys_witness :
  NoDup (map fst (key_files_of (analyze_project_structure licensed_fs "proj" 3))).
Proof.
  apply (key_files_keys licensed_fs "proj" 3 licensed_tree); [reflexivity | solve_wf].
Defined.

(** ** The document *)

Lemma ends_with_app x suf : ends_with suf (x ++ suf) = true.
Proof. apply ends_with_spec. by exists x. Qed.

Lemma ends_with_longer suf c y :
  (String.length suf <= String.length c)%nat -> ends_with suf c = false ->
  ends_with suf (y ++ c) = false.
Proof.
  intros Hlen Hc. induction y as [|a y IH]; [exact Hc|].
  change (String a y ++ c) with (String a (y ++ c)).
  cbn [ends_with]. rewrite IH, orb_false_r. apply String.eqb_neq. intros E.
  apply (f_equal String.length) in E. simpl in E. rewrite append_length in E. lia.
Qed.

(** the document of an existing root: what precedes the Contributing
    section, that section, and the License section if [key_files] has
    the key *)
Lemma generate_readme_shape (fs : filesystem) project_path project_name description s section :
  analyze_project_structure fs project_path 3 = Some (ProjectStructure s) ->
  project_structure_section s = Some section ->
  exists body,
    String.prefix (title project_path project_name) body = true /\
    generate_readme fs project_path project_name description =
    Some (if bool_decide (is_Some (dict_get "license" (s_key_files s)))
          then (body ++ contributing_text) ++ license_text
          else body ++ contributing_text).
Proof.
  intros Ha Hsec. unfold generate_readme. rewrite Ha.
  generalize (title project_path project_name). intros t.
  change (Some (ProjectStructure s) ≫= _) with
    (let readme_content := t in
     let readme_content :=
        if truthy description then readme_content ++ default "" description ++ nl ++ nl
        else readme_content ++ "A brief description of your project." ++ nl ++ nl in
     let readme_content :=
        if negb (Nat.eqb (length (s_languages s)) 0) then
          readme_content ++ "## Technologies Used" ++ nl ++ nl ++
          String.concat "" (map (fun lang => "- " ++ Py.upper lang ++ nl)
                                (sorted id (s_languages s))) ++ nl
        else readme_content in
     let readme_content := readme_content ++ "## Installation" ++ nl ++ nl in
     let readme_content := readme_content ++ installation_block (s_key_files s) in
     let readme_content := readme_content ++ "## Usage" ++ nl ++ nl in
     let readme_content :=
        readme_content ++ "Describe how to use your project here." ++ nl ++ nl in
     project_structure_section s ≫= fun section =>
     let readme_content := readme_content ++ section in
     let readme_content := readme_content ++ contributing_text in
     let readme_content :=
        if bool_decide (is_Some (dict_get "license" (s_key_files s))) then
          readme_content ++ license_text
        else readme_content in
     Some readme_content).
  cbv zeta. rewrite Hsec.
  change (Some section ≫= ?f) with (f section). cbv beta.
  eexists. split; [|reflexivity].
  assert (String.prefix t t = true) as Ht.
  { rewrite <- (append_nil_r t) at 2. apply prefix_app_r. }
  destruct (truthy description), (negb _); repeat (apply prefix_weaken); exact Ht.
Qed.

(** X10: on an existing root the document ends with the License section
    exactly when some entry of [files] has a name that passes the test
    for the [license] category; the License section then follows the
    Contributing section, and otherwise the document ends with the
    Contributing section. *)
Theorem license_section_iff (fs : filesystem) project_path project_name description x :
  fs (Path_str (Path project_path)) = Some x -> wf_node x ->
  exists readme,
    generate_readme fs project_path project_name description = Some readme /\
    (ends_with license_text readme = true <->
     exists e, In e (files_of (scan_project fs project_path)) /\
               matches_category (entry_str "name" e) "license" = true) /\
    ((exists e, In e (files_of (scan_project fs project_path)) /\
                matches_category (entry_str "name" e) "license" = true) ->
     ends_with (contributing_text ++ license_text) readme = true) /\
    (~ (exists e, In e (files_of (scan_project fs project_path)) /\
                  matches_category (entry_str "name" e) "license" = true) ->
     ends_with contributing_text readme = true).
Proof.
  intros Hfs Hwf.
  destruct (generate_readme_returns fs project_path x Hfs Hwf) as (s & section & Ha & Hsec).
  destruct (generate_readme_shape fs project_path project_name description s section Ha Hsec)
    as (body & _ & ->).
  eexists. split; [reflexivity|].
  pose proof (key_files_last_wins_lemma fs project_path 3 x "license" Hfs Hwf) as Hk.
  unfold scan_project. rewrite Ha in Hk |- *. cbn [key_files_of files_of] in Hk |- *.
  assert (is_Some (dict_get "license" (s_key_files s)) <->
          exists e, In e (s_files s) /\
                    matches_category (entry_str "name" e) "license" = true) as Hiff.
  { rewrite Hk, last_matching_is_Some. split.
    - intros (file & path & (e & [= <- <-] & He)%in_map_iff & Hm). by exists e.
    - intros (e & He & Hm). exists (entry_str "name" e), (entry_str "path" e).
      split; [|done]. apply in_map_iff. by exists e. }
  rewrite <- Hiff. case_bool_decide as Hl.
  - rewrite ends_with_app. split; [done|]. split; [|done].
    intros _. rewrite append_assoc. apply ends_with_app.
  - rewrite ends_with_longer; [| vm_compute; lia | vm_compute; reflexivity].
    split; [done|]. split; [done|]. intros _. apply ends_with_app.
Qed.

Lemma license_section_iff_witness :
  exists readme,
    generate_readme licensed_fs "proj" None None = Some readme /\
    (ends_with license_text readme = true <->
     exists e, In e (files_of (scan_project licensed_fs "proj")) /\
               matches_category (entry_str "name" e) "license" = true) /\
    ((exists e, In e (files_of (scan_project licensed_fs "proj")) /\
                matches_category (entry_str "name" e) "license" = true) ->
     ends_with (contributing_text ++ license_text) readme = true) /\
    (~ (exists e, In e (files_of (scan_project licensed_fs "proj")) /\
                  matches_category (entry_str "name" e) "license" = true) ->
     ends_with contributing_text readme = true).
Proof.
  apply (license_section_iff licensed_fs "proj" None None licensed_tree);
    [reflexivity | solve_wf].
Defined.

Lemma prefix_trans a b c :
  String.prefix a b = true -> String.prefix b c = true -> String.prefix a c = true.
Proof.
  intros [x ->]%prefix_inv [y ->]%prefix_inv. rewrite append_assoc. apply prefix_app_r.
Qed.

(** X11: on a root whose stat fails with an error that [exists()] takes
    for absence [generate_readme] returns [Error: ] followed by the
    message of the analysis; when the stat fails with another error,
    that error is raised; on a root that exists it returns a document
    that starts with [# ] and the title, and so does not start with
    [Error: ]. *)
Theorem generate_readme_error_or_document (fs : filesystem) project_path project_name description :
  match fs (Path_str (Path project_path)) with
  | None =>
      if taken_for_absence (failure fs (Path_str (Path project_path))) then
        generate_readme fs project_path project_name description
        = Some ("Error: Project path '" ++ project_path ++ "' does not exist")
      else generate_readme fs project_path project_name description = None
  | Some x =>
      wf_node x ->
      exists readme,
        generate_readme fs project_path project_name description = Some readme /\
        String.prefix (title project_path project_name) readme = true /\
        String.prefix "# " readme = true /\
        String.prefix "Error: " readme = false
  end.
Proof.
  destruct (fs (Path_str (Path project_path))) as [x|] eqn:Hfs.
  - intros Hwf.
    destruct (generate_readme_returns fs project_path x Hfs Hwf) as (s & section & Ha & Hsec).
    destruct (generate_readme_shape fs project_path project_name description s section Ha Hsec)
      as (body & Hb & ->).
    eexists. split; [reflexivity|].
    assert (String.prefix (title project_path project_name)
              (if bool_decide (is_Some (dict_get "license" (s_key_files s)))
               then (body ++ contributing_text) ++ license_text
               else body ++ contributing_text) = true) as Ht.
    { destruct (bool_decide _); repeat (apply prefix_weaken); exact Hb. }
    split; [exact Ht|].
    apply prefix_inv in Ht as [rest Hr]. rewrite Hr.
    change (title project_path project_name ++ rest) with
      (String "#" (String " "
         (((if truthy project_name then default "" project_name
            else name (Path project_path)) ++ nl ++ nl) ++ rest))).
    split; [|reflexivity].
    apply (prefix_app_r "# "
             (((if truthy project_name then default "" project_name
                else name (Path project_path)) ++ nl ++ nl) ++ rest)).
  - unfold generate_readme, analyze_project_structure, Path_exists. rewrite Hfs.
    by destruct (taken_for_absence _).
Qed.

Lemma generate_readme_error_or_document_witness :
  generate_readme sample_fs "nowhere" None None
    = Some ("Error: Project path '" ++ "nowhere" ++ "' does not exist") /\
  generate_readme long_name_fs long_name None None = None /\
  exists readme,
    generate_readme sample_fs "proj" (Some "Demo") None = Some readme /\
    String.prefix (title "proj" (Some "Demo")) readme = true /\
    String.prefix "# " readme = true /\
    String.prefix "Error: " readme = false.
Proof.
  split; [|split].
  - exact (generate_readme_error_or_document sample_fs "nowhere" None None).
  - exact (generate_readme_error_or_document long_name_fs long_name None None).
  - apply (generate_readme_error_or_document sample_fs "proj" (Some "Demo") None). solve_wf.
Defined.

(** X12: [get_project_info] returns [Error analyzing project: ] and the
    message on a root whose stat fails with an error that [exists()]
    takes for absence; when the stat fails with another error, that
    error is raised; on a root that exists its first line names the root
    as [pathlib] prints it, and the text does not start with
    [Error analyzing project: ]. *)
Theorem get_project_info_error_or_summary (fs : filesystem) project_path :
  match fs (Path_str (Path project_path)) with
  | None =>
      if taken_for_absence (failure fs (Path_str (Path project_path))) then
        get_project_info fs project_path
        = Some ("Error analyzing project: Project path '" ++ project_path ++ "' does not exist")
      else get_project_info fs project_path = None
  | Some x =>
      wf_node x ->
      exists info,
        get_project_info fs project_path = Some info /\
        String.prefix ("Project Analysis for: " ++ Path_str (Path project_path) ++ nl) info
          = true /\
        String.prefix "Error analyzing project: " info = false
  end.
Proof.
  destruct (fs (Path_str (Path project_path))) as [x|] eqn:Hfs.
  - intros Hwf. unfold get_project_info.
    rewrite (analyze_visited _ _ _ _ Hfs Hwf).
    change (Some ?a ≫= ?f) with (f a). cbv beta iota zeta.
    cbn [finish s_root]. rewrite add_file_root. cbn [initial s_root].
    eexists. split; [reflexivity|]. split; [|reflexivity].
    do 3 apply prefix_weaken.
    rewrite <- (append_nil_r ("Project Analysis for: " ++ Path_str (Path project_path) ++ nl)) at 2.
    apply prefix_app_r.
  - unfold get_project_info, analyze_project_structure, Path_exists. rewrite Hfs.
    by destruct (taken_for_absence _).
Qed.

Lemma get_project_info_error_or_summary_witness :
  get_project_info sample_fs "nowhere"
    = Some ("Error analyzing project: Project path '" ++ "nowhere" ++ "' does not exist") /\
  get_project_info long_name_fs long_name = None /\
  exists info,
    get_project_info sample_fs "./proj" = Some info /\
    String.prefix ("Project Analysis for: " ++ Path_str (Path "./proj") ++ nl) info = true /\
    String.prefix "Error analyzing project: " info = false.
Proof.
  split; [|split].
  - exact (get_project_info_error_or_summary sample_fs "nowhere").
  - exact (get_project_info_error_or_summary long_name_fs long_name).
  - apply (get_project_info_error_or_summary sample_fs "./proj"). solve_wf.
Defined.

Example sample_project_info :
  get_project_info sample_fs "proj" = Some (
    "Project Analysis for: proj" ++ nl ++ "Total files: 5" ++ nl ++
    "Languages detected: " ++ Py.join ", " (languages_of (scan_project sample_fs "proj")) ++ nl ++
    "Key files found: readme, config" ++ nl).
Proof. vm_compute. reflexivity. Qed.

(** ** The case of names *)

Lemma lower_char_idem a : Py.lower_char (Py.lower_char a) = Py.lower_char a.
Proof. destruct a as [[] [] [] [] [] [] [] []]; reflexivity. Qed.

Lemma lower_char_dot a : Ascii.eqb (Py.lower_char a) "." = Ascii.eqb a ".".
Proof. destruct a as [[] [] [] [] [] [] [] []]; reflexivity. Qed.

Lemma lower_idem s : Py.lower (Py.lower s) = Py.lower s.
Proof.
  induction s as [|a s IH]; [reflexivity|].
  cbn [Py.lower]. by rewrite lower_char_idem, IH.
Qed.

Lemma lower_length s : String.length (Py.lower s) = String.length s.
Proof. induction s as [|a s IH]; [reflexivity|]. cbn [Py.lower String.length]. by rewrite IH. Qed.

Lemma rfind_lower s : Py.rfind "." (Py.lower s) = Py.rfind "." s.
Proof.
  induction s as [|a s IH]; [reflexivity|].
  cbn [Py.lower Py.rfind]. by rewrite IH, lower_char_dot.
Qed.

Lemma drop_lower n s : Py.drop n (Py.lower s) = Py.lower (Py.drop n s).
Proof.
  revert s. induction n as [|n IH]; intros s; [reflexivity|].
  destruct s as [|a s]; [reflexivity|]. cbn [Py.lower Py.drop]. apply IH.
Qed.

Lemma suffix_lower n : suffix_of_name (Py.lower n) = Py.lower (suffix_of_name n).
Proof.
  unfold suffix_of_name. rewrite rfind_lower, lower_length, drop_lower.
  by destruct (_ && _).
Qed.

Lemma language_tag_lower f : language_tag (Py.lower f) = language_tag f.
Proof. unfold language_tag. by rewrite suffix_lower, lower_idem. Qed.

Lemma matches_pattern_lower f pat :
  matches_pattern f pat = String.eqb (Py.lower f) (Py.lower pat).
Proof.
  unfold matches_pattern. destruct (String.eqb_spec f pat) as [->|]; [|apply orb_false_r].
  by rewrite String.eqb_refl.
Qed.

(** X13: the classification of a file name looks at its lowercase form
    only: two names with the same lowercase form get the same language
    tag and pass the key-file test for the same categories, and the
    second, case-sensitive comparison of line 92 never adds a match. *)
Theorem classification_ignores_case f g :
  Py.lower f = Py.lower g ->
  language_tag f = language_tag g /\
  (forall category, matches_category f category = matches_category g category) /\
  (forall pattern, matches_pattern f pattern = String.eqb (Py.lower f) (Py.lower pattern)).
Proof.
  intros H. split; [|split].
  - by rewrite <- (language_tag_lower f), <- (language_tag_lower g), H.
  - intros category. unfold matches_category.
    induction key_files_patterns as [|[cat ps] l IH]; [reflexivity|].
    cbn [existsb fst snd]. rewrite IH. f_equal. f_equal.
    induction ps as [|pat ps IHp]; [reflexivity|].
    cbn [existsb]. by rewrite IHp, !matches_pattern_lower, H.
  - intros pattern. apply matches_pattern_lower.
Qed.

Lemma classification_ignores_case_witness :
  language_tag "Main.PY" = language_tag "main.py" /\
  (forall category, matches_category "Main.PY" category = matches_category "main.py" category) /\
  (forall pattern,
     matches_pattern "Main.PY" pattern = String.eqb (Py.lower "Main.PY") (Py.lower pattern)).
Proof. apply (classification_ignores_case "Main.PY" "main.py"). reflexivity. Defined.

(** ** No path twice *)

Lemma distinct_names_Dir n l cs :
  distinct_names (Dir n l cs) <-> NoDup (map node_name cs) /\ Forall distinct_names cs.
Proof.
  cbn [distinct_names]. apply and_iff_compat_l.
  induction cs as [|c cs IH]; [by split; [constructor|]|].
  rewrite Forall_cons, <- IH. reflexivity.
Qed.

Lemma In_here ds cs v :
  In v (here ds cs) -> exists f st, v = (ds, f, st) /\ In (File f st) cs.
Proof.
  unfold here. intros ([f st] & <- & [Hf _]%filter_In)%in_map_iff.
  exists f, st. split; [done|]. by apply In_nondir_entries.
Qed.

Lemma NoDup_here ds cs :
  NoDup (map node_name cs) -> NoDup (map rel_path (here ds cs)).
Proof.
  induction cs as [|c cs IH]; [constructor|].
  cbn [map]. intros [Hc Hcs]%NoDup_cons. specialize (IH Hcs).
  destruct c as [f st | n l cs']; [|exact IH].
  unfold here. cbn [nondir_entries List.filter fst].
  destruct (negb (ignored_name f)); [|exact IH].
  cbn [map]. apply NoDup_cons. split; [|exact IH].
  intros Hin. apply Hc. apply list_elem_of_In in Hin.
  apply in_map_iff in Hin as (v & Hv & (f' & st' & -> & Hf)%In_here).
  unfold rel_path in Hv. cbn [fst snd] in Hv. apply app_inj_tail in Hv as [_ ->].
  apply list_elem_of_In, in_map_iff. by exists (File f st').
Qed.

Lemma In_below_chain max_depth ds cs v :
  Forall (fun c => valid_name (node_name c) /\ wf_node c) cs ->
  In v (below max_depth ds cs) ->
  exists c rel, In c cs /\ v.1.1 = (ds ++ node_name c :: rel)%list.
Proof.
  intros Hwf (c & Hc & _ & _ & Hv)%In_below.
  rewrite Forall_forall in Hwf. apply list_elem_of_In in Hc as Hc'.
  destruct (Hwf _ Hc') as [_ Hw].
  destruct (visited_sound _ _ _ _ Hw Hv) as (rel & Hok).
  exists c, rel. split; [done|]. rewrite (vo_chain _ _ _ _ _ Hok). by rewrite <- app_assoc.
Qed.

Lemma NoDup_below max_depth ds cs :
  Forall (fun c => forall ds, wf_node c -> distinct_names c ->
                   NoDup (map rel_path (visited max_depth ds c))) cs ->
  Forall (fun c => valid_name (node_name c) /\ wf_node c) cs ->
  Forall distinct_names cs ->
  NoDup (map node_name cs) ->
  NoDup (map rel_path (below max_depth ds cs)).
Proof.
  induction 1 as [|c cs Hc _ IH]; [constructor|].
  intros [[Hn Hw] Hwf]%Forall_cons [Hd Hds]%Forall_cons [Hnc Hnd]%NoDup_cons.
  cbn [below]. rewrite map_app. apply NoDup_app. split; [|split].
  - destruct (is_dir c && negb (ignored_name (node_name c))); [by apply Hc | constructor].
  - intros p Hp Hq.
    destruct (is_dir c && negb (ignored_name (node_name c))); [|by apply elem_of_nil in Hp].
    apply list_elem_of_In, in_map_iff in Hp as (v & <- & Hv).
    apply list_elem_of_In, in_map_iff in Hq as (w & Hvw & Hq).
    destruct (visited_sound _ _ _ _ Hw Hv) as (rel & Hok).
    destruct (In_below_chain _ _ _ _ Hwf Hq) as (c' & rel' & Hc' & Hw').
    unfold rel_path in Hvw. rewrite (vo_chain _ _ _ _ _ Hok), Hw' in Hvw.
    rewrite <- !app_assoc in Hvw. apply app_inv_head in Hvw.
    injection Hvw as Hname _. apply Hnc.
    apply list_elem_of_In, in_map_iff. by exists c'.
  - by apply IH.
Qed.

Lemma NoDup_visited max_depth x :
  forall ds, wf_node x -> distinct_names x ->
  NoDup (map rel_path (visited max_depth ds x)).
Proof.
  induction x as [n st | n l cs IH] using node_ind'; intros ds Hwf Hd; [constructor|].
  destruct l; [|constructor].
  apply wf_node_Dir in Hwf. apply distinct_names_Dir in Hd as [Hnd Hd].
  rewrite visited_Dir. destruct (max_depth <? Z.of_nat (length ds)); [constructor|].
  rewrite map_app. apply NoDup_app. split; [|split].
  - by apply NoDup_here.
  - intros p Hp Hq.
    apply list_elem_of_In, in_map_iff in Hp as (v & <- & (f & st & -> & Hf)%In_here).
    apply list_elem_of_In, in_map_iff in Hq as (w & Hvw & Hq).
    destruct (In_below_chain _ _ _ _ Hwf Hq) as (c' & rel' & Hc' & Hw').
    unfold rel_path in Hvw. rewrite Hw' in Hvw. cbn [fst snd] in Hvw.
    rewrite <- app_assoc in Hvw. apply app_inv_head in Hvw.
    injection Hvw as _ Hnil. by destruct rel'.
  - by apply NoDup_below.
Qed.

Lemma Path_str_inj p q : wf_path p -> wf_path q -> Path_str p = Path_str q -> p = q.
Proof.
  intros Hp Hq H. by rewrite <- (Path_Path_str p Hp), <- (Path_Path_str q Hq), H.
Qed.

(** X14: when sibling entries bear distinct names, no two entries of
    [files] have the same [path]. *)
Theorem files_paths_distinct (fs : filesystem) project_path max_depth x :
  fs (Path_str (Path project_path)) = Some x -> wf_node x -> distinct_names x ->
  NoDup (map (entry_str "path") (files_of (analyze_project_structure fs project_path max_depth))).
Proof.
  intros Hfs Hwf Hd. rewrite (files_of_analyze _ _ _ _ Hfs Hwf).
  pose proof (NoDup_visited max_depth x [] Hwf Hd) as Hnd.
  assert (forall v, In v (visited max_depth [] x) -> Forall valid_name (rel_path v)) as Hvalid.
  { intros v Hv. destruct (visited_sound _ _ _ _ Hwf Hv) as (rel & Hok).
    destruct (visited_ok_valid _ _ _ _ Hok). apply Forall_app. split; [done|].
    by apply Forall_singleton. }
  induction (visited max_depth [] x) as [|v vs IH]; [constructor|].
  cbn [map] in *. apply NoDup_cons in Hnd as [Hv Hvs].
  apply NoDup_cons. split; [|apply IH; [done | intros w Hw; apply Hvalid; by right]].
  intros Hin. apply Hv.
  apply list_elem_of_In, in_map_iff in Hin as (e & He & (w & <- & Hw)%in_map_iff).
  apply list_elem_of_In, in_map_iff. exists w. split; [|done].
  unfold entry_str, entry_of in He. rewrite !get_file_info_path in He.
  apply Path_str_inj in He.
  - apply (f_equal p_tail) in He. cbn [path_app p_tail] in He. by apply app_inv_head in He.
  - apply wf_path_app; [apply wf_Path | apply Hvalid; by right].
  - apply wf_path_app; [apply wf_Path | apply Hvalid; by left].
Qed.

Lemma files_paths_distinct_witness :
  NoDup (map (entry_str "path") (files_of (analyze_project_structure sample_fs "proj" 3))).
Proof.
  apply (files_paths_distinct sample_fs "proj" 3 sample_tree).
  - reflexivity.
  - solve_wf.
  - cbn. repeat split; repeat (apply NoDup_cons; split; [|]); try apply NoDup_nil; try done;
      rewrite ?elem_of_cons, ?elem_of_nil; intuition discriminate.
Defined.
